(** * ssth-backend: team registration backend

    A shallow embedding of [src/data_handler.py] (the persistence gateway and
    credential store) and of [src/main.py] (the HTTP endpoints with their
    cookie-carried identity token), followed by the properties of the
    specification that concern them.

    Three collaborators of the program live outside the repository and are
    made explicit:
    - the [bcrypt] library, taken as an interface ([SecureHash]);
    - the MariaDB connection, modelled as tables of rows together with the
      statements the program sends to it;
    - the random source behind [secrets.randbelow] and [bcrypt.gensalt],
      whose draws are arguments of the operations that consume them. *)

From Stdlib Require Import Ascii String.
From stdpp Require Import base decidable option list strings numbers pretty.

(** ** Python exceptions and outcomes *)

(** The exception classes the two modules raise or let through. *)
Inductive Exception : Type :=
  | GeneralError            (* data_handler.py, never raised *)
  | UserMailExists          (* data_handler.py *)
  | InvalidEmail            (* data_handler.py *)
  | TeamFull                (* data_handler.py *)
  | InvalidTeamId           (* data_handler.py *)
  | NoSuchTeamMember        (* data_handler.py *)
  | AuthenticationFailure   (* main.py *)
  | AssertionError          (* builtin, raised by [assert] *)
  | ValueError              (* builtin, raised by [bcrypt.checkpw] *)
  | IntegrityError.         (* mariadb.IntegrityError *)

#[global] Instance Exception_eq_dec : EqDecision Exception.
Proof. solve_decision. Defined.

(** A call either returns a value or raises. *)
Inductive Outcome (A : Type) : Type :=
  | Return (a : A)
  | Raise (e : Exception).
Arguments Return {A} a.
Arguments Raise {A} e.

(** ** The hashing primitive

    [bcrypt.hashpw(value, bcrypt.gensalt())] and [bcrypt.checkpw(value,
    digest)].  The salt drawn by [gensalt] is an argument of [hashpw];
    [checkpw] answers [None] where the library raises [ValueError] (a digest
    it cannot parse).  The two laws are the library's contract: a digest it
    produced for a value is accepted for that value, and a digest it produced
    is one it can parse, whatever value it is checked against. *)
Class SecureHash : Type := {
  salt : Type;
  hashpw : string → salt → string;
  checkpw : string → string → option bool;
  checkpw_hashpw : ∀ value s, checkpw value (hashpw value s) = Some true;
  checkpw_parses : ∀ value value' s, is_Some (checkpw value' (hashpw value s))
}.

(** Idealised collision freedom: a digest produced for [value] is accepted
    for no other value.  It is an assumption about the primitive, stated
    where a property needs it and never taken for granted. *)
Definition collision_free `{SecureHash} : Prop :=
  ∀ value value' s, checkpw value' (hashpw value s) = Some true → value' = value.

(** ** The store *)

Module Store.

(** users(id, email, password) *)
Record UserRow : Type := {
  users_id : string;
  users_email : string;
  users_password : string
}.

(** teams(id, user_id, name) *)
Record TeamRow : Type := {
  teams_id : string;
  teams_user_id : string;
  teams_name : string
}.

(** team_members(id, team_id, name, email, phone_number, grade,
    school_name, city, pin_code) *)
Record MemberRow : Type := {
  team_members_id : string;
  team_members_team_id : string;
  team_members_name : string;
  team_members_email : string;
  team_members_phone_number : string;
  team_members_grade : string;
  team_members_school_name : string;
  team_members_city : string;
  team_members_pin_code : string
}.

(** TeamDocument(id, team_id, path) *)
Record DocumentRow : Type := {
  documents_id : string;
  documents_team_id : string;
  documents_path : string
}.

Record Database : Type := {
  users : list UserRow;
  teams : list TeamRow;
  team_members : list MemberRow;
  documents : list DocumentRow
}.

Definition empty : Database :=
  {| users := []; teams := []; team_members := []; documents := [] |}.

(** The parameterized statements of [data_handler.py], one constructor per
    SQL text, carrying the bound parameters. *)
Inductive Statement : Type :=
  | InsertUser (row : UserRow)
  | SelectUserPassword (email : string)
  | SelectUserId (email : string)
  | InsertTeam (row : TeamRow)
  | SelectTeamUserId (id : string)
  | SelectTeamOne (id : string)
  | SelectMemberOne (team_id : string)
  | InsertMember (row : MemberRow)
  | SelectUserTeams (user_id : string)
  | SelectMemberIds (team_id : string)
  | SelectMemberDetails (id team_id : string)
  | InsertDocument (row : DocumentRow).

(** Modelled from the spec: the table constraints, which the repository
    does not contain.  The identifier of each table is its primary key,
    [users.email] is unique, [teams.user_id] is a foreign key to [users] and
    [team_members.team_id] a foreign key to [teams]; an insert that breaks
    one of them is rejected by the store. *)
Definition violates (db : Database) (q : Statement) : bool :=
  match q with
  | InsertUser row =>
      bool_decide (users_id row ∈ users_id <$> users db)
      || bool_decide (users_email row ∈ users_email <$> users db)
  | InsertTeam row =>
      bool_decide (teams_id row ∈ teams_id <$> teams db)
      || negb (bool_decide (teams_user_id row ∈ users_id <$> users db))
  | InsertMember row =>
      bool_decide (team_members_id row ∈ team_members_id <$> team_members db)
      || negb (bool_decide (team_members_team_id row ∈ teams_id <$> teams db))
  | InsertDocument row =>
      bool_decide (documents_id row ∈ documents_id <$> documents db)
  | _ => false
  end.

(** The database after an accepted statement: inserts append a row. *)
Definition apply (db : Database) (q : Statement) : Database :=
  match q with
  | InsertUser row =>
      {| users := users db ++ [row]; teams := teams db;
         team_members := team_members db; documents := documents db |}
  | InsertTeam row =>
      {| users := users db; teams := teams db ++ [row];
         team_members := team_members db; documents := documents db |}
  | InsertMember row =>
      {| users := users db; teams := teams db;
         team_members := team_members db ++ [row]; documents := documents db |}
  | InsertDocument row =>
      {| users := users db; teams := teams db;
         team_members := team_members db; documents := documents db ++ [row] |}
  | _ => db
  end.

(** What [cursor.fetchall()] returns after the statement: a list of rows,
    each a list of cells.  The rows come in the order the tables hold them;
    the program's queries have no ORDER BY, so that order is the store's
    choice, and the properties below speak of the first row only where the
    key leaves one row, and of membership or rearrangement elsewhere. *)
Definition fetchall (db : Database) (q : Statement) : list (list string) :=
  match q with
  | SelectUserPassword email =>
      (λ r, [users_password r]) <$> filter (λ r, users_email r = email) (users db)
  | SelectUserId email =>
      (λ r, [users_id r]) <$> filter (λ r, users_email r = email) (users db)
  | SelectTeamUserId id =>
      (λ r, [teams_user_id r]) <$> filter (λ r, teams_id r = id) (teams db)
  | SelectTeamOne id =>
      (λ _, ["1"%string]) <$> filter (λ r, teams_id r = id) (teams db)
  | SelectMemberOne team_id =>
      (λ _, ["1"%string]) <$>
        filter (λ r, team_members_team_id r = team_id) (team_members db)
  | SelectUserTeams user_id =>
      (λ r, [teams_id r; teams_name r]) <$>
        filter (λ r, teams_user_id r = user_id) (teams db)
  | SelectMemberIds team_id =>
      (λ r, [team_members_id r]) <$>
        filter (λ r, team_members_team_id r = team_id) (team_members db)
  | SelectMemberDetails id team_id =>
      (λ r, [team_members_name r; team_members_email r;
             team_members_phone_number r; team_members_grade r;
             team_members_school_name r; team_members_city r;
             team_members_pin_code r; team_members_team_id r]) <$>
        filter (λ r, team_members_id r = id ∧ team_members_team_id r = team_id)
               (team_members db)
  | _ => []
  end.

End Store.
Import Store.

(** ** The connection

    [mariadb.connect] leaves autocommit off: a statement changes the
    session's view, and [commit] makes that view the committed one.
    [executed] records every call made on the connection, so that "the store
    is not contacted" can be stated. *)

Inductive Call : Type :=
  | Execute (q : Statement)
  | Commit.

Record Connection : Type := {
  session : Database;
  committed : Database;
  executed : list Call
}.

(** Computations over the single, module-level connection. *)
Definition Py (A : Type) : Type := Connection → Outcome A * Connection.

#[global] Instance Py_ret : MRet Py := λ A a c, (Return a, c).
#[global] Instance Py_bind : MBind Py :=
  λ A B k m c, match m c with
               | (Return a, c') => k a c'
               | (Raise e, c') => (Raise e, c')
               end.

Definition raise {A} (e : Exception) : Py A := λ c, (Raise e, c).

(** [try: m except E1: ... except E2: ...]: [handler] answers [Some] on the
    exception classes the [except] clauses name. *)
Definition try_except {A} (m : Py A) (handler : Exception → option (Py A)) : Py A :=
  λ c, match m c with
       | (Return a, c') => (Return a, c')
       | (Raise e, c') =>
           match handler e with
           | Some h => h c'
           | None => (Raise e, c')
           end
       end.

(** [try: x = m except E: return r], then the rest of the function on [x]:
    an [except] clause that returns ends the function with [r]. *)
Definition try_return {A R} (m : Py A) (handler : Exception → option R)
    (rest : A → Py R) : Py R :=
  λ c, match m c with
       | (Return a, c') => rest a c'
       | (Raise e, c') =>
           match handler e with
           | Some r => (Return r, c')
           | None => (Raise e, c')
           end
       end.

(** [assert b] *)
Definition assert (b : bool) : Py unit :=
  λ c, if b then (Return tt, c) else (Raise AssertionError, c).

(** A pure call that may raise, run inside a computation. *)
Definition lift {A} (o : Outcome A) : Py A := λ c, (o, c).

(** [cursor.execute(q, params)] followed by [cursor.fetchall()]. *)
Definition execute (q : Statement) : Py (list (list string)) :=
  λ c,
    let log := executed c ++ [Execute q] in
    if violates (session c) q
    then (Raise IntegrityError,
          {| session := session c; committed := committed c; executed := log |})
    else (Return (fetchall (session c) q),
          {| session := apply (session c) q; committed := committed c;
             executed := log |}).

(** [self.__connection.commit()] *)
Definition commit : Py unit :=
  λ c, (Return tt,
        {| session := session c; committed := session c;
           executed := executed c ++ [Commit] |}).

(** [row[i]] on a fetched row.  The statements fix the number of columns, so
    the index is always in range; the default is never reached. *)
Definition cell (i : nat) (row : list string) : string := default ""%string (row !! i).

(** ** data_handler.py *)

(** [secrets.randbelow(n)]: a value below [n], read off the draw of the
    system's random source. *)
Definition randbelow (draw n : N) : N := (draw mod n)%N.

Module DataHandler.

(** [class TeamMemberDetails(BaseModel)] *)
Module TeamMemberDetails.
Record t : Type := {
  name : string;
  email : string;
  phone_number : string;
  grade : string;
  school_name : string;
  city : string;
  pin_code : string;
  team_id : string
}.
End TeamMemberDetails.

(** [class Team(BaseModel)] *)
Module Team.
Record t : Type := {
  id : string;
  name : string
}.
End Team.

(** [__generate_id]: [str(secrets.randbelow(1_000_000 - 100_000) + 100_000)] *)
Definition generate_id (draw : N) : string :=
  pretty (randbelow draw (1000000 - 100000) + 100000)%N.
Global Arguments generate_id : simpl never.

Section WithHash.
Context `{SecureHash}.

(** [__hash_password]: [bcrypt.hashpw(password.encode(), bcrypt.gensalt())] *)
Definition hash_password (s : salt) (password : string) : string :=
  hashpw password s.

Definition register_user (draw : N) (s : salt) (email password : string)
  : Py string :=
  let user_id := generate_id draw in
  let password := hash_password s password in
  try_except
    (execute (InsertUser {| users_id := user_id; users_email := email;
                            users_password := password |}))
    (λ e, match e with
          | IntegrityError => Some (raise UserMailExists)
          | _ => None
          end);;
  commit;;
  mret user_id.

Definition verify_password (email password : string) : Py bool :=
  hashed_password ← execute (SelectUserPassword email);
  match hashed_password with
  | [] => raise InvalidEmail
  | row :: _ =>
      match checkpw password (cell 0 row) with
      | Some correct => mret correct
      | None => raise ValueError
      end
  end.

Definition get_user_id (email : string) : Py string :=
  id ← execute (SelectUserId email);
  match id with
  | [] => raise InvalidEmail
  | row :: _ => mret (cell 0 row)
  end.

End WithHash.

Definition create_team (draw : N) (user_id name : string) : Py string :=
  let team_id := generate_id draw in
  try_except
    (execute (InsertTeam {| teams_id := team_id; teams_user_id := user_id;
                            teams_name := name |}))
    (λ e, match e with
          | IntegrityError => Some (raise UserMailExists)
          | _ => None
          end);;
  commit;;
  mret team_id.

Definition get_user_id_for_team (team_id : string) : Py string :=
  user_id ← execute (SelectTeamUserId team_id);
  match user_id with
  | [] => raise InvalidTeamId
  | row :: _ => mret (cell 0 row)
  end.

Definition add_team_member (draw : N)
    (team_id name email phone_number grade school_name city pin_code : string)
  : Py string :=
  let member_id := generate_id draw in
  response ← execute (SelectTeamOne team_id);
  if bool_decide (length response = 0) then raise InvalidTeamId else
  response ← execute (SelectMemberOne team_id);
  let response := length response in
  if bool_decide (4 ≤ response) then raise TeamFull else
  execute (InsertMember
             {| team_members_id := member_id;
                team_members_team_id := team_id;
                team_members_name := name;
                team_members_email := email;
                team_members_phone_number := phone_number;
                team_members_grade := grade;
                team_members_school_name := school_name;
                team_members_city := city;
                team_members_pin_code := pin_code |});;
  commit;;
  mret member_id.

Definition get_user_teams (user_id : string) : Py (list Team.t) :=
  rows ← execute (SelectUserTeams user_id);
  mret ((λ i, {| Team.id := cell 0 i; Team.name := cell 1 i |}) <$> rows).

Definition get_team_members (team_id : string) : Py (list string) :=
  rows ← execute (SelectMemberIds team_id);
  mret (cell 0 <$> rows).

Definition get_team_member_details (team_id team_member_id : string)
  : Py TeamMemberDetails.t :=
  response ← execute (SelectMemberDetails team_member_id team_id);
  match response with
  | [] => raise NoSuchTeamMember
  | response :: _ =>
      mret {| TeamMemberDetails.name := cell 0 response;
              TeamMemberDetails.email := cell 1 response;
              TeamMemberDetails.phone_number := cell 2 response;
              TeamMemberDetails.grade := cell 3 response;
              TeamMemberDetails.school_name := cell 4 response;
              TeamMemberDetails.city := cell 5 response;
              TeamMemberDetails.pin_code := cell 6 response;
              TeamMemberDetails.team_id := cell 7 response |}
  end.

(** No [commit] follows the insert: the row stays in the session. *)
Definition add_document (draw : N) (team_id path : string) : Py string :=
  let doc_id := generate_id draw in
  execute (InsertDocument {| documents_id := doc_id;
                             documents_team_id := team_id;
                             documents_path := path |});;
  mret doc_id.

End DataHandler.

(** ** main.py *)

Module Main.

Module CookiesBase.
Record t : Type := { user_id : string; hashed_user_id : string }.
End CookiesBase.

Module GetIdResponse.
Record t : Type := { id : string; success : bool }.
End GetIdResponse.

Module RegisterRequest.
Record t : Type := { email : string; password : string }.
End RegisterRequest.

Module RegisterResponse.
Record t : Type := {
  id : string;
  success : bool;
  email_unique : bool;
  password_acceptable : bool
}.
End RegisterResponse.

Module LoginRequest.
Record t : Type := { email : string; password : string }.
End LoginRequest.

Module LoginResponse.
Record t : Type := {
  success : bool;
  email_correct : bool;
  password_correct : bool
}.
End LoginResponse.

Module CreateTeamRequest.
Record t : Type := { team_name : string }.
End CreateTeamRequest.

(** [team_id: str|int]: the identifier, or the integer [-1]. *)
Module CreateTeamResponse.
Record t : Type := {
  team_id : string + Z;
  success : bool;
  logged_in : bool
}.
End CreateTeamResponse.

Module AddTeamMemberRequest.
Record t : Type := {
  team_id : string;
  name : string;
  email : string;
  phone_number : string;
  grade : string;
  school_name : string;
  city : string;
  pin_code : string
}.
End AddTeamMemberRequest.

Module AddTeamMemberResponse.
Record t : Type := {
  success : bool;
  logged_in : bool;
  space_available : bool;
  team_created : bool;
  user_team_match : bool
}.
End AddTeamMemberResponse.

Module GetTeamsResponse.
Record t : Type := {
  team_ids : list DataHandler.Team.t;
  success : bool;
  logged_in : bool
}.
End GetTeamsResponse.

Module GetTeamMemberRequest.
Record t : Type := { team_id : string }.
End GetTeamMemberRequest.

Module GetTeamMemberResoponse.
Record t : Type := {
  team_member_ids : list string;
  success : bool;
  logged_in : bool;
  user_team_match : bool
}.
End GetTeamMemberResoponse.

Module GetTeamMemberDetailsRequest.
Record t : Type := { team_id : string; team_member_id : string }.
End GetTeamMemberDetailsRequest.

Module GetTeamMemberDeatailsResoponse.
Record t : Type := {
  team_member_details : option DataHandler.TeamMemberDetails.t;
  success : bool;
  logged_in : bool;
  user_team_match : bool;
  team_member_exists : bool
}.
End GetTeamMemberDeatailsResoponse.

(** The cookies an endpoint sets on its response, in order:
    [response.set_cookie(key, value)]. *)
Definition SetCookies : Type := list (string * string).

Section WithHash.
Context `{SecureHash}.

Definition get_id (cookies : CookiesBase.t) : Outcome string :=
  let hashed_user_id := CookiesBase.hashed_user_id cookies in
  let user_id := CookiesBase.user_id cookies in
  match checkpw user_id hashed_user_id with
  | None => Raise AuthenticationFailure        (* except ValueError *)
  | Some false => Raise AuthenticationFailure  (* if not correct *)
  | Some true => Return user_id
  end.

(** No [try] around [checkpw] here: its [ValueError] leaves the endpoint. *)
Definition get_current_id (cookie : CookiesBase.t) : Py GetIdResponse.t :=
  let hashed_user_id := CookiesBase.hashed_user_id cookie in
  let user_id := CookiesBase.user_id cookie in
  match checkpw user_id hashed_user_id with
  | None => raise ValueError
  | Some false =>
      mret {| GetIdResponse.id := "-1"; GetIdResponse.success := false |}
  | Some true =>
      mret {| GetIdResponse.id := user_id; GetIdResponse.success := true |}
  end.

Definition register (draw : N) (password_salt token_salt : salt)
    (request : RegisterRequest.t) : Py (RegisterResponse.t * SetCookies) :=
  if bool_decide (String.length (RegisterRequest.password request) < 8) then
    mret ({| RegisterResponse.id := "-1";
             RegisterResponse.success := false;
             RegisterResponse.email_unique := true;
             RegisterResponse.password_acceptable := false |}, [])
  else
    try_return
      (DataHandler.register_user draw password_salt
         (RegisterRequest.email request) (RegisterRequest.password request))
      (λ e, match e with
            | UserMailExists =>
                Some ({| RegisterResponse.id := "-1";
                         RegisterResponse.success := false;
                         RegisterResponse.email_unique := false;
                         RegisterResponse.password_acceptable := true |}, [])
            | _ => None
            end)
      (λ id,
         mret ({| RegisterResponse.id := id;
                  RegisterResponse.success := true;
                  RegisterResponse.email_unique := true;
                  RegisterResponse.password_acceptable := true |},
               [("user_id"%string, id);
                ("hashed_user_id"%string, hashpw id token_salt)])).

Definition login (token_salt : salt) (request : LoginRequest.t)
  : Py (LoginResponse.t * SetCookies) :=
  try_return
    (password_correct ←
       DataHandler.verify_password (LoginRequest.email request)
         (LoginRequest.password request);
     if negb password_correct then
       mret ({| LoginResponse.success := false;
                LoginResponse.email_correct := true;
                LoginResponse.password_correct := false |}, [])
     else
       id ← DataHandler.get_user_id (LoginRequest.email request);
       mret ({| LoginResponse.success := true;
                LoginResponse.email_correct := true;
                LoginResponse.password_correct := true |},
             [("user_id"%string, id);
              ("hashed_user_id"%string, hashpw id token_salt)]))
    (λ e, match e with
          | InvalidEmail =>
              Some ({| LoginResponse.success := false;
                       LoginResponse.email_correct := false;
                       LoginResponse.password_correct := true |}, [])
          | _ => None
          end)
    mret.

Definition create_team (draw : N) (cookies : CookiesBase.t)
    (request : CreateTeamRequest.t) : Py CreateTeamResponse.t :=
  try_return (lift (get_id cookies))
    (λ e, match e with
          | AuthenticationFailure =>
              Some {| CreateTeamResponse.team_id := inr (-1)%Z;
                      CreateTeamResponse.success := false;
                      CreateTeamResponse.logged_in := false |}
          | _ => None
          end)
    (λ user_id,
       id ← DataHandler.create_team draw user_id
              (CreateTeamRequest.team_name request);
       mret {| CreateTeamResponse.team_id := inl id;
               CreateTeamResponse.success := true;
               CreateTeamResponse.logged_in := true |}).

Definition add_team_member_response
    (success logged_in space_available team_created user_team_match : bool)
  : AddTeamMemberResponse.t :=
  {| AddTeamMemberResponse.success := success;
     AddTeamMemberResponse.logged_in := logged_in;
     AddTeamMemberResponse.space_available := space_available;
     AddTeamMemberResponse.team_created := team_created;
     AddTeamMemberResponse.user_team_match := user_team_match |}.

Definition add_team_member (draw : N) (cookies : CookiesBase.t)
    (request : AddTeamMemberRequest.t) : Py AddTeamMemberResponse.t :=
  try_return (lift (get_id cookies))
    (λ e, match e with
          | AuthenticationFailure =>
              Some (add_team_member_response false false true true true)
          | _ => None
          end)
    (λ user_id,
  try_return
    (owner ← DataHandler.get_user_id_for_team
               (AddTeamMemberRequest.team_id request);
     assert (bool_decide (user_id = owner)))
    (λ e, match e with
          | InvalidTeamId =>
              Some (add_team_member_response false true true false false)
          | AssertionError =>
              Some (add_team_member_response false true true true false)
          | _ => None
          end)
    (λ _,
  try_return
    (DataHandler.add_team_member draw
       (AddTeamMemberRequest.team_id request)
       (AddTeamMemberRequest.name request)
       (AddTeamMemberRequest.email request)
       (AddTeamMemberRequest.phone_number request)
       (AddTeamMemberRequest.grade request)
       (AddTeamMemberRequest.school_name request)
       (AddTeamMemberRequest.city request)
       (AddTeamMemberRequest.pin_code request))
    (λ e, match e with
          | TeamFull =>
              Some (add_team_member_response false true false true true)
          | InvalidTeamId =>
              Some (add_team_member_response false true false false true)
          | _ => None
          end)
    (λ _, mret (add_team_member_response true true true true true)))).

Definition get_teams (cookies : CookiesBase.t) : Py GetTeamsResponse.t :=
  try_return (lift (get_id cookies))
    (λ e, match e with
          | AuthenticationFailure =>
              Some {| GetTeamsResponse.team_ids := [];
                      GetTeamsResponse.success := false;
                      GetTeamsResponse.logged_in := false |}
          | _ => None
          end)
    (λ user_id,
       team_ids ← DataHandler.get_user_teams user_id;
       mret {| GetTeamsResponse.team_ids := team_ids;
               GetTeamsResponse.success := true;
               GetTeamsResponse.logged_in := true |}).

(** [assert owner(team) == get_id(cookies)]: the left operand, a store
    query, is evaluated before the token is verified. *)
Definition owner_matches (team_id : string) (cookies : CookiesBase.t)
  : Py unit :=
  owner ← DataHandler.get_user_id_for_team team_id;
  user_id ← lift (get_id cookies);
  assert (bool_decide (owner = user_id)).

Definition get_team_members (cookies : CookiesBase.t)
    (request : GetTeamMemberRequest.t) : Py GetTeamMemberResoponse.t :=
  try_return
    (owner_matches (GetTeamMemberRequest.team_id request) cookies)
    (λ e, match e with
          | AuthenticationFailure =>
              Some {| GetTeamMemberResoponse.team_member_ids := [];
                      GetTeamMemberResoponse.success := false;
                      GetTeamMemberResoponse.logged_in := false;
                      GetTeamMemberResoponse.user_team_match := true |}
          | AssertionError =>
              Some {| GetTeamMemberResoponse.team_member_ids := [];
                      GetTeamMemberResoponse.success := false;
                      GetTeamMemberResoponse.logged_in := true;
                      GetTeamMemberResoponse.user_team_match := false |}
          | _ => None
          end)
    (λ _,
       team_member_ids ←
         DataHandler.get_team_members (GetTeamMemberRequest.team_id request);
       mret {| GetTeamMemberResoponse.team_member_ids := team_member_ids;
               GetTeamMemberResoponse.success := true;
               GetTeamMemberResoponse.logged_in := true;
               GetTeamMemberResoponse.user_team_match := true |}).

Definition get_team_member_details (cookies : CookiesBase.t)
    (request : GetTeamMemberDetailsRequest.t)
  : Py GetTeamMemberDeatailsResoponse.t :=
  try_return
    (owner_matches (GetTeamMemberDetailsRequest.team_id request) cookies)
    (λ e, match e with
          | AuthenticationFailure =>
              Some {| GetTeamMemberDeatailsResoponse.team_member_details := None;
                      GetTeamMemberDeatailsResoponse.success := false;
                      GetTeamMemberDeatailsResoponse.logged_in := false;
                      GetTeamMemberDeatailsResoponse.user_team_match := true;
                      GetTeamMemberDeatailsResoponse.team_member_exists := true |}
          | AssertionError =>
              Some {| GetTeamMemberDeatailsResoponse.team_member_details := None;
                      GetTeamMemberDeatailsResoponse.success := false;
                      GetTeamMemberDeatailsResoponse.logged_in := true;
                      GetTeamMemberDeatailsResoponse.user_team_match := false;
                      GetTeamMemberDeatailsResoponse.team_member_exists := true |}
          | _ => None
          end)
    (λ _,
  try_return
    (DataHandler.get_team_member_details
       (GetTeamMemberDetailsRequest.team_id request)
       (GetTeamMemberDetailsRequest.team_member_id request))
    (λ e, match e with
          | NoSuchTeamMember =>
              Some {| GetTeamMemberDeatailsResoponse.team_member_details := None;
                      GetTeamMemberDeatailsResoponse.success := false;
                      GetTeamMemberDeatailsResoponse.logged_in := true;
                      GetTeamMemberDeatailsResoponse.user_team_match := true;
                      GetTeamMemberDeatailsResoponse.team_member_exists := false |}
          | _ => None
          end)
    (λ details,
       mret {| GetTeamMemberDeatailsResoponse.team_member_details := Some details;
               GetTeamMemberDeatailsResoponse.success := true;
               GetTeamMemberDeatailsResoponse.logged_in := true;
               GetTeamMemberDeatailsResoponse.user_team_match := true;
               GetTeamMemberDeatailsResoponse.team_member_exists := true |})).

End WithHash.

End Main.

(** ** Sequences of gateway operations *)

(** One call of a [DataHandler] method, with its arguments and the random
    draws it consumes. *)
Inductive Operation `{SecureHash} : Type :=
  | RegisterUser (draw : N) (s : salt) (email password : string)
  | VerifyPassword (email password : string)
  | GetUserId (email : string)
  | CreateTeam (draw : N) (user_id name : string)
  | GetUserIdForTeam (team_id : string)
  | AddTeamMember (draw : N)
      (team_id name email phone_number grade school_name city pin_code : string)
  | GetUserTeams (user_id : string)
  | GetTeamMembers (team_id : string)
  | GetTeamMemberDetails (team_id team_member_id : string)
  | AddDocument (draw : N) (team_id path : string).

(** The connection after the call, whether it returned or raised. *)
Definition perform `{SecureHash} (op : Operation) (c : Connection) : Connection :=
  match op with
  | RegisterUser draw s email password =>
      (DataHandler.register_user draw s email password c).2
  | VerifyPassword email password =>
      (DataHandler.verify_password email password c).2
  | GetUserId email => (DataHandler.get_user_id email c).2
  | CreateTeam draw user_id name =>
      (DataHandler.create_team draw user_id name c).2
  | GetUserIdForTeam team_id => (DataHandler.get_user_id_for_team team_id c).2
  | AddTeamMember draw team_id name email phone_number grade school_name city
      pin_code =>
      (DataHandler.add_team_member draw team_id name email phone_number grade
         school_name city pin_code c).2
  | GetUserTeams user_id => (DataHandler.get_user_teams user_id c).2
  | GetTeamMembers team_id => (DataHandler.get_team_members team_id c).2
  | GetTeamMemberDetails team_id team_member_id =>
      (DataHandler.get_team_member_details team_id team_member_id c).2
  | AddDocument draw team_id path =>
      (DataHandler.add_document draw team_id path c).2
  end.

Definition perform_all `{SecureHash} (ops : list Operation) (c : Connection)
  : Connection :=
  foldl (λ c op, perform op c) c ops.

(** ** Vocabulary of the properties *)

(** The connection with further calls on its record and the same data. *)
Definition logged (calls : list Call) (c : Connection) : Connection :=
  {| session := session c; committed := committed c;
     executed := executed c ++ calls |}.

(** The connection after an accepted, committed statement. *)
Definition stored (q : Statement) (calls : list Call) (c : Connection)
  : Connection :=
  {| session := apply (session c) q; committed := apply (session c) q;
     executed := executed c ++ calls |}.

Definition team_exists (team_id : string) (db : Database) : Prop :=
  team_id ∈ teams_id <$> teams db.

#[global] Instance team_exists_dec (team_id : string) (db : Database) :
  Decision (team_exists team_id db).
Proof. unfold team_exists. apply _. Defined.

(** The recorded owner of a team: the [user_id] of the first row with that
    identifier. *)
Definition team_owner (team_id : string) (db : Database) : option string :=
  teams_user_id <$> head (filter (λ r, teams_id r = team_id) (teams db)).

Definition member_count (team_id : string) (db : Database) : nat :=
  length (filter (λ r, team_members_team_id r = team_id) (team_members db)).

Definition member_ids (db : Database) : list string :=
  team_members_id <$> team_members db.

(** [data_handler.add_team_member(team_id=request.team_id, ...)], the call
    the endpoint makes with the fields of a request. *)
Definition add_requested_member (draw : N)
    (request : Main.AddTeamMemberRequest.t) : Py string :=
  DataHandler.add_team_member draw
    (Main.AddTeamMemberRequest.team_id request)
    (Main.AddTeamMemberRequest.name request)
    (Main.AddTeamMemberRequest.email request)
    (Main.AddTeamMemberRequest.phone_number request)
    (Main.AddTeamMemberRequest.grade request)
    (Main.AddTeamMemberRequest.school_name request)
    (Main.AddTeamMemberRequest.city request)
    (Main.AddTeamMemberRequest.pin_code request).

(** The row [register_user] inserts. *)
Definition user_row `{SecureHash} (draw : N) (s : salt) (email password : string)
  : UserRow :=
  {| users_id := DataHandler.generate_id draw;
     users_email := email;
     users_password := hashpw password s |}.

(** The row [create_team] inserts. *)
Definition team_row (draw : N) (user_id name : string) : TeamRow :=
  {| teams_id := DataHandler.generate_id draw;
     teams_user_id := user_id;
     teams_name := name |}.

(** The token pair a client presents after receiving the cookies [set]: the
    last value set for each of the two names. *)
Definition last_cookie (key : string) (set : Main.SetCookies) : option string :=
  snd <$> last (filter (λ kv, kv.1 = key) set).

Definition presented (set : Main.SetCookies) : option Main.CookiesBase.t :=
  user_id ← last_cookie "user_id" set;
  hashed_user_id ← last_cookie "hashed_user_id" set;
  Some {| Main.CookiesBase.user_id := user_id;
          Main.CookiesBase.hashed_user_id := hashed_user_id |}.

(** Responses, by the values of their fields in the order of the class. *)
Definition team_members_response (team_member_ids : list string)
    (success logged_in user_team_match : bool) : Main.GetTeamMemberResoponse.t :=
  {| Main.GetTeamMemberResoponse.team_member_ids := team_member_ids;
     Main.GetTeamMemberResoponse.success := success;
     Main.GetTeamMemberResoponse.logged_in := logged_in;
     Main.GetTeamMemberResoponse.user_team_match := user_team_match |}.

Definition member_details_response
    (team_member_details : option DataHandler.TeamMemberDetails.t)
    (success logged_in user_team_match team_member_exists : bool)
  : Main.GetTeamMemberDeatailsResoponse.t :=
  {| Main.GetTeamMemberDeatailsResoponse.team_member_details := team_member_details;
     Main.GetTeamMemberDeatailsResoponse.success := success;
     Main.GetTeamMemberDeatailsResoponse.logged_in := logged_in;
     Main.GetTeamMemberDeatailsResoponse.user_team_match := user_team_match;
     Main.GetTeamMemberDeatailsResoponse.team_member_exists := team_member_exists |}.

Definition register_response (id : string)
    (success email_unique password_acceptable : bool) : Main.RegisterResponse.t :=
  {| Main.RegisterResponse.id := id;
     Main.RegisterResponse.success := success;
     Main.RegisterResponse.email_unique := email_unique;
     Main.RegisterResponse.password_acceptable := password_acceptable |}.

(** At most four members, in the session and in what is committed. *)
Definition within_capacity (team_id : string) (c : Connection) : Prop :=
  member_count team_id (session c) ≤ 4 ∧ member_count team_id (committed c) ≤ 4.

(** [m] keeps [I]: from a connection in [I], the connection it leaves is in
    [I], whether [m] returns or raises. *)
Definition preserves {A} (I : Connection → Prop) (m : Py A) : Prop :=
  ∀ c, I c → I (m c).2.

(** A token pair fails verification: [checkpw] raises or answers false. *)
Definition token_rejected `{SecureHash} (cookies : Main.CookiesBase.t) : Prop :=
  checkpw (Main.CookiesBase.user_id cookies)
          (Main.CookiesBase.hashed_user_id cookies) ≠ Some true.

(** ** A hash instance to run the model on

    A transparent stand-in for bcrypt: the digest is ["$"], the salt
    character and the value; anything else does not parse. *)
Definition plain_hashpw (value : string) (s : Ascii.ascii) : string :=
  String "$"%char (String s value).

Definition plain_checkpw (value digest : string) : option bool :=
  match digest with
  | String "$"%char (String _ hashed) => Some (bool_decide (hashed = value))
  | _ => None
  end.

#[program] Instance plain_hash : SecureHash :=
  {| salt := Ascii.ascii; hashpw := plain_hashpw; checkpw := plain_checkpw |}.
Next Obligation.
  intros value s. unfold plain_checkpw, plain_hashpw.
  rewrite bool_decide_eq_true_2; reflexivity.
Qed.
Next Obligation. intros value value' s. unfold plain_checkpw, plain_hashpw. eauto. Qed.




(** ** Example data

    The scenario of the specification: ["a@x.com"] registers and gets the
    identifier ["100001"], creates team ["100007"], and adds members to it. *)
Module Example.

Definition nobody : Connection :=
  {| session := Store.empty; committed := Store.empty; executed := [] |}.

Definition request (team_id name : string) : Main.AddTeamMemberRequest.t :=
  {| Main.AddTeamMemberRequest.team_id := team_id;
     Main.AddTeamMemberRequest.name := name;
     Main.AddTeamMemberRequest.email := "m@x.com";
     Main.AddTeamMemberRequest.phone_number := "5550100";
     Main.AddTeamMemberRequest.grade := "9";
     Main.AddTeamMemberRequest.school_name := "High School";
     Main.AddTeamMemberRequest.city := "Springfield";
     Main.AddTeamMemberRequest.pin_code := "560001" |}.

(** After [register_user] with draw 1 and [create_team] with draw 7. *)
Definition one_team : Connection :=
  Eval vm_compute in
    perform_all (H := plain_hash)
      [RegisterUser 1 "s"%char "a@x.com" "password1";
       CreateTeam 7 "100001" "Team A"] nobody.

(** Then four members, with draws 11 to 14. *)
Definition full_team : Connection :=
  Eval vm_compute in
    perform_all (H := plain_hash)
      [AddTeamMember 11 "100007" "m1" "m@x.com" "5550100" "9" "High School"
         "Springfield" "560001";
       AddTeamMember 12 "100007" "m2" "m@x.com" "5550100" "9" "High School"
         "Springfield" "560001";
       AddTeamMember 13 "100007" "m3" "m@x.com" "5550100" "9" "High School"
         "Springfield" "560001";
       AddTeamMember 14 "100007" "m4" "m@x.com" "5550100" "9" "High School"
         "Springfield" "560001"] one_team.

(** The token pair issued to ["100001"], and pairs that are not. *)
Definition owner_cookies : Main.CookiesBase.t :=
  {| Main.CookiesBase.user_id := "100001";
     Main.CookiesBase.hashed_user_id := plain_hashpw "100001" "t"%char |}.

Definition stranger_cookies : Main.CookiesBase.t :=
  {| Main.CookiesBase.user_id := "222222";
     Main.CookiesBase.hashed_user_id := plain_hashpw "222222" "u"%char |}.

Definition forged_cookies : Main.CookiesBase.t :=
  {| Main.CookiesBase.user_id := "100001";
     Main.CookiesBase.hashed_user_id := plain_hashpw "100002" "t"%char |}.

Definition malformed_cookies : Main.CookiesBase.t :=
  {| Main.CookiesBase.user_id := "100001";
     Main.CookiesBase.hashed_user_id := "garbage" |}.



End Example.

(** ** Vocabulary of the further properties *)

(** The data of [c'] is the data of [c]: nothing stored, nothing committed. *)
Definition same_data (c c' : Connection) : Prop :=
  session c' = session c ∧ committed c' = committed c.

(** The first row a query by email finds. *)
Definition user_with_email (email : string) (db : Database) : option UserRow :=
  head (filter (λ r, users_email r = email) (users db)).

(** The first row a query by member and team identifier finds. *)
Definition member_in_team (team_member_id team_id : string) (db : Database)
  : option MemberRow :=
  head (filter (λ r, team_members_id r = team_member_id
                     ∧ team_members_team_id r = team_id) (team_members db)).

(** [TeamMemberDetails(name=response[0], ...)] for a row. *)
Definition details_of (row : MemberRow) : DataHandler.TeamMemberDetails.t :=
  {| DataHandler.TeamMemberDetails.name := team_members_name row;
     DataHandler.TeamMemberDetails.email := team_members_email row;
     DataHandler.TeamMemberDetails.phone_number := team_members_phone_number row;
     DataHandler.TeamMemberDetails.grade := team_members_grade row;
     DataHandler.TeamMemberDetails.school_name := team_members_school_name row;
     DataHandler.TeamMemberDetails.city := team_members_city row;
     DataHandler.TeamMemberDetails.pin_code := team_members_pin_code row;
     DataHandler.TeamMemberDetails.team_id := team_members_team_id row |}.

(** [Team(id=str(i[0]), name=i[1])] for a row. *)
Definition team_of (row : TeamRow) : DataHandler.Team.t :=
  {| DataHandler.Team.id := teams_id row; DataHandler.Team.name := teams_name row |}.

Definition teams_of_user (user_id : string) (db : Database)
  : list DataHandler.Team.t :=
  team_of <$> filter (λ r, teams_user_id r = user_id) (teams db).

Definition member_ids_of_team (team_id : string) (db : Database) : list string :=
  team_members_id <$>
    filter (λ r, team_members_team_id r = team_id) (team_members db).

(** The row [add_document] inserts. *)
Definition document_row (draw : N) (team_id path : string) : DocumentRow :=
  {| documents_id := DataHandler.generate_id draw;
     documents_team_id := team_id;
     documents_path := path |}.

(** The row [add_team_member] inserts for a request. *)
Definition requested_row (draw : N) (request : Main.AddTeamMemberRequest.t)
  : MemberRow :=
  {| team_members_id := DataHandler.generate_id draw;
     team_members_team_id := Main.AddTeamMemberRequest.team_id request;
     team_members_name := Main.AddTeamMemberRequest.name request;
     team_members_email := Main.AddTeamMemberRequest.email request;
     team_members_phone_number := Main.AddTeamMemberRequest.phone_number request;
     team_members_grade := Main.AddTeamMemberRequest.grade request;
     team_members_school_name := Main.AddTeamMemberRequest.school_name request;
     team_members_city := Main.AddTeamMemberRequest.city request;
     team_members_pin_code := Main.AddTeamMemberRequest.pin_code request |}.

(** Referential integrity of the member table: every member row names a
    stored team. *)
Definition members_have_teams (db : Database) : Prop :=
  Forall (λ row, team_exists (team_members_team_id row) db) (team_members db).

(** Every table of [db'] is the table of [db] with rows added at its end. *)
Definition grown (db db' : Database) : Prop :=
  users db `prefix_of` users db'
  ∧ teams db `prefix_of` teams db'
  ∧ team_members db `prefix_of` team_members db'
  ∧ documents db `prefix_of` documents db'.

(** More responses, by the values of their fields in the order of the class. *)
Definition login_response (success email_correct password_correct : bool)
  : Main.LoginResponse.t :=
  {| Main.LoginResponse.success := success;
     Main.LoginResponse.email_correct := email_correct;
     Main.LoginResponse.password_correct := password_correct |}.

Definition create_team_response (team_id : string + Z) (success logged_in : bool)
  : Main.CreateTeamResponse.t :=
  {| Main.CreateTeamResponse.team_id := team_id;
     Main.CreateTeamResponse.success := success;
     Main.CreateTeamResponse.logged_in := logged_in |}.

Definition get_teams_response (team_ids : list DataHandler.Team.t)
    (success logged_in : bool) : Main.GetTeamsResponse.t :=
  {| Main.GetTeamsResponse.team_ids := team_ids;
     Main.GetTeamsResponse.success := success;
     Main.GetTeamsResponse.logged_in := logged_in |}.

Definition get_id_response (id : string) (success : bool) : Main.GetIdResponse.t :=
  {| Main.GetIdResponse.id := id; Main.GetIdResponse.success := success |}.

(** The cookies of an issued token pair. *)
Definition token_cookies `{SecureHash} (id : string) (token_salt : salt)
  : Main.SetCookies :=
  [("user_id"%string, id); ("hashed_user_id"%string, hashpw id token_salt)].

(** * Properties *)

(** ** The store and the connection *)

Section StoreFacts.

Lemma team_exists_rows (team_id : string) (db : Database) :
  team_exists team_id db ↔ filter (λ r, teams_id r = team_id) (teams db) ≠ [].
Proof.
  unfold team_exists. rewrite list_elem_of_fmap. split.
  - intros (r & -> & Hr) Hnil.
    by eapply (filter_nil_not_elem_of _ (teams db) r Hnil).
  - intros Hne. destruct (filter _ _) as [|r rows] eqn:Hrows; [done|].
    assert (Hin : r ∈ filter (λ r, teams_id r = team_id) (teams db))
      by (rewrite Hrows; left).
    apply list_elem_of_filter in Hin as [<- Hin]. eauto.
Qed.

Lemma team_exists_select (team_id : string) (db : Database) :
  bool_decide (length (fetchall db (SelectTeamOne team_id)) = 0) = false
  ↔ team_exists team_id db.
Proof.
  rewrite team_exists_rows, bool_decide_eq_false. simpl.
  rewrite length_fmap. destruct (filter _ _); simpl; split; intros; try done; lia.
Qed.

Lemma member_count_select (team_id : string) (db : Database) :
  length (fetchall db (SelectMemberOne team_id)) = member_count team_id db.
Proof. simpl. apply length_fmap. Qed.

Lemma member_count_insert (team_id : string) (db : Database) (row : MemberRow) :
  member_count team_id (apply db (InsertMember row)) =
    member_count team_id db +
    (if decide (team_members_team_id row = team_id) then 1 else 0).
Proof.
  unfold member_count. simpl. rewrite filter_app, length_app. f_equal.
  rewrite filter_singleton; [|exact []]. by case_decide.
Qed.

Lemma team_exists_insert_member (team_id : string) (db : Database)
    (row : MemberRow) :
  team_exists team_id (apply db (InsertMember row)) ↔ team_exists team_id db.
Proof. reflexivity. Qed.

Lemma member_ids_insert (db : Database) (row : MemberRow) :
  member_ids (apply db (InsertMember row)) =
    member_ids db ++ [team_members_id row].
Proof. unfold member_ids. simpl. by rewrite fmap_app. Qed.

(** A statement other than an insert into [team_members] leaves every
    team's member count as it was. *)
Lemma member_count_apply (team_id : string) (db : Database) (q : Statement) :
  (∀ row, q ≠ InsertMember row) →
  member_count team_id (apply db q) = member_count team_id db.
Proof. intros Hq. destruct q; try reflexivity. by destruct (Hq row). Qed.

(** A query: the rows come back, the data stays, the call is recorded. *)
Lemma execute_select (q : Statement) (c : Connection) :
  violates (session c) q = false →
  apply (session c) q = session c →
  execute q c = (Return (fetchall (session c) q), logged [Execute q] c).
Proof. intros Hok Hsame. unfold execute, logged. by rewrite Hok, Hsame. Qed.

Lemma execute_rejected (q : Statement) (c : Connection) :
  violates (session c) q = true →
  execute q c = (Raise IntegrityError, logged [Execute q] c).
Proof. intros Hbad. unfold execute, logged. by rewrite Hbad. Qed.

Lemma execute_accepted (q : Statement) (c : Connection) :
  violates (session c) q = false →
  execute q c =
    (Return (fetchall (session c) q),
     {| session := apply (session c) q; committed := committed c;
        executed := executed c ++ [Execute q] |}).
Proof. intros Hok. unfold execute. by rewrite Hok. Qed.

Lemma logged_logged (calls calls' : list Call) (c : Connection) :
  logged calls' (logged calls c) = logged (calls ++ calls') c.
Proof. unfold logged. simpl. by rewrite app_assoc. Qed.

Lemma violates_insert_member (db : Database) (row : MemberRow) :
  violates db (InsertMember row) =
    bool_decide (team_members_id row ∈ member_ids db)
    || negb (bool_decide (team_exists (team_members_team_id row) db)).
Proof. reflexivity. Qed.

End StoreFacts.

(** ** Identifiers *)

Lemma randbelow_lt (draw n : N) : (0 < n)%N → (randbelow draw n < n)%N.
Proof. intros Hn. unfold randbelow. apply N.mod_lt. lia. Qed.

(** An identifier is the decimal form of a number from 100000 to 999999. *)
Lemma generate_id_range (draw : N) :
  ∃ n : N, (100000 ≤ n < 1000000)%N ∧ DataHandler.generate_id draw = pretty n.
Proof.
  exists (randbelow draw (1000000 - 100000) + 100000)%N. split; [|done].
  pose proof (randbelow_lt draw (1000000 - 100000) ltac:(lia)). lia.
Qed.

(** ** add_team_member, case by case *)

Section AddTeamMember.

Variables (draw : N)
  (team_id name email phone_number grade school_name city pin_code : string).

Let call : Py string :=
  DataHandler.add_team_member draw team_id name email phone_number grade
    school_name city pin_code.

Let row : MemberRow :=
  {| team_members_id := DataHandler.generate_id draw;
     team_members_team_id := team_id;
     team_members_name := name;
     team_members_email := email;
     team_members_phone_number := phone_number;
     team_members_grade := grade;
     team_members_school_name := school_name;
     team_members_city := city;
     team_members_pin_code := pin_code |}.

Ltac start_call :=
  unfold call, DataHandler.add_team_member, mbind, Py_bind;
  rewrite execute_select by reflexivity.

Lemma add_team_member_missing (c : Connection) :
  ¬ team_exists team_id (session c) →
  call c = (Raise InvalidTeamId, logged [Execute (SelectTeamOne team_id)] c).
Proof.
  intros Hmissing. start_call.
  destruct (bool_decide _) eqn:Hone; [reflexivity|].
  apply team_exists_select in Hone. contradiction.
Qed.

Ltac past_checks Hteam Hroom :=
  start_call;
  apply team_exists_select in Hteam; rewrite Hteam;
  rewrite execute_select by reflexivity;
  rewrite member_count_select, logged_logged;
  change (session (logged _ ?c)) with (session c);
  rewrite (bool_decide_eq_false_2 _ (proj1 (Nat.lt_nge _ _) Hroom)).

Lemma add_team_member_full (c : Connection) :
  team_exists team_id (session c) →
  4 ≤ member_count team_id (session c) →
  call c = (Raise TeamFull,
            logged [Execute (SelectTeamOne team_id);
                    Execute (SelectMemberOne team_id)] c).
Proof.
  intros Hteam Hfull. start_call.
  apply team_exists_select in Hteam. rewrite Hteam.
  rewrite execute_select by reflexivity.
  rewrite member_count_select, logged_logged.
  change (session (logged _ c)) with (session c).
  by rewrite bool_decide_eq_true_2.
Qed.

Lemma add_team_member_collision (c : Connection) :
  team_exists team_id (session c) →
  member_count team_id (session c) < 4 →
  DataHandler.generate_id draw ∈ member_ids (session c) →
  call c = (Raise IntegrityError,
            logged [Execute (SelectTeamOne team_id);
                    Execute (SelectMemberOne team_id);
                    Execute (InsertMember row)] c).
Proof.
  intros Hteam Hroom Hclash. past_checks Hteam Hroom.
  rewrite execute_rejected.
  - by rewrite logged_logged.
  - rewrite violates_insert_member.
    apply orb_true_iff. left. by apply bool_decide_eq_true_2.
Qed.

Lemma add_team_member_inserts (c : Connection) :
  team_exists team_id (session c) →
  member_count team_id (session c) < 4 →
  DataHandler.generate_id draw ∉ member_ids (session c) →
  call c = (Return (DataHandler.generate_id draw),
            stored (InsertMember row)
              [Execute (SelectTeamOne team_id);
               Execute (SelectMemberOne team_id);
               Execute (InsertMember row);
               Commit] c).
Proof.
  intros Hteam Hroom Hfresh. pose proof Hteam as Hparent.
  past_checks Hteam Hroom.
  rewrite execute_accepted.
  - unfold commit, mret, Py_ret, stored, logged. simpl.
    by rewrite <- !app_assoc.
  - rewrite violates_insert_member. cbn [team_members_id team_members_team_id].
    rewrite bool_decide_eq_false_2 by done.
    by rewrite bool_decide_eq_true_2.
Qed.

(** Whatever [add_team_member] raises, the data of the connection is what
    it was before the call. *)
Lemma add_team_member_raise_unchanged (c c' : Connection) (e : Exception) :
  call c = (Raise e, c') →
  session c' = session c ∧ committed c' = committed c.
Proof.
  destruct (decide (team_exists team_id (session c))) as [Hteam|Hmissing].
  - destruct (decide (4 ≤ member_count team_id (session c))) as [Hfull|Hroom].
    + rewrite add_team_member_full by done. by intros [= _ <-].
    + destruct (decide (DataHandler.generate_id draw ∈ member_ids (session c))).
      * rewrite add_team_member_collision by (done || lia). by intros [= _ <-].
      * rewrite add_team_member_inserts by (done || lia). by intros [= ].
  - rewrite add_team_member_missing by done. by intros [= _ <-].
Qed.

End AddTeamMember.

(** ** What a computation preserves *)

Section Preservation.

Variable I : Connection → Prop.

Lemma preserves_ret {A} (a : A) : preserves I (mret a).
Proof. by intros c. Qed.

Lemma preserves_raise {A} (e : Exception) : preserves I (@raise A e).
Proof. by intros c. Qed.

Lemma preserves_bind {A B} (m : Py A) (k : A → Py B) :
  preserves I m → (∀ a, preserves I (k a)) → preserves I (m ≫= k).
Proof.
  intros Hm Hk c Hc. unfold mbind, Py_bind.
  specialize (Hm c Hc). destruct (m c) as [[a|e] c']; simpl in *.
  - by apply Hk.
  - done.
Qed.

Lemma preserves_try_except {A} (m : Py A) (handler : Exception → option (Py A)) :
  preserves I m → (∀ e h, handler e = Some h → preserves I h) →
  preserves I (try_except m handler).
Proof.
  intros Hm Hh c Hc. unfold try_except.
  specialize (Hm c Hc). destruct (m c) as [[a|e] c']; simpl in *; [done|].
  destruct (handler e) as [h|] eqn:He; [|done]. by eapply Hh.
Qed.

Lemma preserves_rows {A} (rows : list (list string)) (none : Py A)
    (first : list string → Py A) :
  preserves I none → (∀ row, preserves I (first row)) →
  preserves I (match rows with [] => none | row :: _ => first row end).
Proof. intros Hnone Hfirst. by destruct rows. Qed.

End Preservation.

(** ** The capacity of a team *)

Section Capacity.

Variable team_id : string.

Lemma capacity_execute (q : Statement) :
  (∀ row, q ≠ InsertMember row) →
  preserves (within_capacity team_id) (execute q).
Proof.
  intros Hq c [Hs Hc]. unfold execute.
  destruct (violates (session c) q); split; simpl; try done.
  by rewrite member_count_apply.
Qed.

Lemma capacity_commit : preserves (within_capacity team_id) commit.
Proof. by intros c [Hs Hc]. Qed.

Lemma capacity_add_team_member (draw : N)
    (team name email phone_number grade school_name city pin_code : string) :
  preserves (within_capacity team_id)
    (DataHandler.add_team_member draw team name email phone_number grade
       school_name city pin_code).
Proof.
  intros c [Hs Hc].
  destruct (decide (team_exists team (session c))) as [Hteam|Hmissing].
  - destruct (decide (4 ≤ member_count team (session c))) as [Hfull|Hroom].
    + by rewrite add_team_member_full.
    + destruct (decide (DataHandler.generate_id draw ∈ member_ids (session c))).
      * by rewrite add_team_member_collision by (done || lia).
      * rewrite add_team_member_inserts by (done || lia).
        unfold within_capacity, stored. cbn [snd session committed].
        rewrite member_count_insert. cbn [team_members_team_id].
        case_decide; subst; lia.
  - by rewrite add_team_member_missing.
Qed.

(** Every other method is built from queries, inserts into other tables,
    [commit] and [raise]. *)
Ltac keeps :=
  repeat first
    [ apply preserves_ret
    | apply preserves_raise
    | apply capacity_commit
    | apply capacity_execute; discriminate
    | apply preserves_rows; [|intros ?]
    | apply preserves_bind; [|intros ?]
    | apply preserves_try_except; [|intros [] ? [= <-]]
    | match goal with
      | |- preserves _ (match ?x with _ => _ end) => destruct x
      end ].

Lemma capacity_perform `{SecureHash} (op : Operation) :
  preserves (within_capacity team_id) (λ c, (Return tt, perform op c)).
Proof.
  intros c Hc. cbn [snd].
  destruct op; cbn [perform];
    match goal with |- _ (?m c).2 => revert c Hc; change (preserves (within_capacity team_id) m) end;
    try apply capacity_add_team_member.
  - unfold DataHandler.register_user. keeps.
  - unfold DataHandler.verify_password. keeps.
  - unfold DataHandler.get_user_id. keeps.
  - unfold DataHandler.create_team. keeps.
  - unfold DataHandler.get_user_id_for_team. keeps.
  - unfold DataHandler.get_user_teams. keeps.
  - unfold DataHandler.get_team_members. keeps.
  - unfold DataHandler.get_team_member_details. keeps.
  - unfold DataHandler.add_document. keeps.
Qed.

Lemma capacity_perform_all `{SecureHash} (ops : list Operation) (c : Connection) :
  within_capacity team_id c → within_capacity team_id (perform_all ops c).
Proof.
  revert c. induction ops as [|op ops IH]; intros c Hc; [done|].
  apply IH, (capacity_perform op c Hc).
Qed.

End Capacity.

(** Decidable facts about the example data are settled by evaluation. *)
Ltac by_evaluation :=
  unfold within_capacity, token_rejected;
  apply (bool_decide_unpack _); vm_compute; exact I.

(** ** C1 and C2: the gateway's add_team_member *)

Section GatewayClaims.

Import Main.

Lemma NoDup_four {A} (a b c d : A) :
  NoDup [a; b; c; d] → a ≠ b ∧ a ≠ c ∧ a ≠ d ∧ b ≠ c ∧ b ≠ d ∧ c ≠ d.
Proof.
  rewrite !NoDup_cons, !not_elem_of_cons. tauto.
Qed.

(** One accepted insert: the team is still there, it has one more member,
    and the new identifier joins the stored ones. *)
Lemma add_requested_member_inserts (team_id : string) (draw : N)
    (request : AddTeamMemberRequest.t) (c : Connection) :
  AddTeamMemberRequest.team_id request = team_id →
  team_exists team_id (session c) →
  member_count team_id (session c) < 4 →
  DataHandler.generate_id draw ∉ member_ids (session c) →
  ∃ c',
    add_requested_member draw request c = (Return (DataHandler.generate_id draw), c')
    ∧ team_exists team_id (session c')
    ∧ member_count team_id (session c') = S (member_count team_id (session c))
    ∧ committed c' = session c'
    ∧ member_ids (session c') =
        member_ids (session c) ++ [DataHandler.generate_id draw].
Proof.
  intros <- Hteam Hroom Hfresh. eexists. split.
  - unfold add_requested_member. by apply add_team_member_inserts.
  - unfold stored. cbn [session committed].
    rewrite team_exists_insert_member, member_count_insert, member_ids_insert.
    cbn [team_members_team_id team_members_id].
    rewrite decide_True by done. repeat split; [done | lia].
Qed.

(** C1. Starting from a store in which the team exists with at most four
    members, no sequence of gateway operations brings its member count
    above four.  In particular [add_team_member] on a team with four or
    more members raises [TeamFull] and leaves the data as it was, and five
    calls in sequence on a team without members return for the first four
    and raise [TeamFull] on the fifth, the count being four; the four
    inserts are those of identifiers the store does not hold yet. *)
Theorem team_never_exceeds_four `{SecureHash} (team_id : string)
    (c : Connection) :
  team_exists team_id (session c) →
  (within_capacity team_id c →
   ∀ ops, within_capacity team_id (perform_all ops c))
  ∧ (4 ≤ member_count team_id (session c) →
     ∀ draw request,
       AddTeamMemberRequest.team_id request = team_id →
       add_requested_member draw request c =
         (Raise TeamFull,
          logged [Execute (SelectTeamOne team_id);
                  Execute (SelectMemberOne team_id)] c))
  ∧ (member_count team_id (session c) = 0 →
     ∀ d1 d2 d3 d4 d5 r1 r2 r3 r4 r5,
       Forall (λ r, AddTeamMemberRequest.team_id r = team_id)
         [r1; r2; r3; r4; r5] →
       NoDup (DataHandler.generate_id <$> [d1; d2; d3; d4]) →
       Forall (λ d, DataHandler.generate_id d ∉ member_ids (session c))
         [d1; d2; d3; d4] →
       ∃ c1 c2 c3 c4 c5,
         add_requested_member d1 r1 c = (Return (DataHandler.generate_id d1), c1)
         ∧ add_requested_member d2 r2 c1 = (Return (DataHandler.generate_id d2), c2)
         ∧ add_requested_member d3 r3 c2 = (Return (DataHandler.generate_id d3), c3)
         ∧ add_requested_member d4 r4 c3 = (Return (DataHandler.generate_id d4), c4)
         ∧ add_requested_member d5 r5 c4 = (Raise TeamFull, c5)
         ∧ member_count team_id (session c5) = 4
         ∧ member_count team_id (committed c5) = 4).
Proof.
  intros Hteam. split; [|split].
  - intros Hcap ops. by apply capacity_perform_all.
  - intros Hfull draw request <-. unfold add_requested_member.
    by apply add_team_member_full.
  - intros Hzero d1 d2 d3 d4 d5 r1 r2 r3 r4 r5 Hreq Hdistinct Hfresh.
    repeat (apply Forall_cons in Hreq as [? Hreq]).
    repeat (apply Forall_cons in Hfresh as [? Hfresh]).
    apply NoDup_four in Hdistinct as (D12 & D13 & D14 & D23 & D24 & D34).
    destruct (add_requested_member_inserts team_id d1 r1 c)
      as (c1 & E1 & T1 & N1 & K1 & M1); [done | done | lia | done |].
    destruct (add_requested_member_inserts team_id d2 r2 c1)
      as (c2 & E2 & T2 & N2 & K2 & M2); [done | done | lia | |].
    { rewrite M1, not_elem_of_app, list_elem_of_singleton. split; congruence. }
    destruct (add_requested_member_inserts team_id d3 r3 c2)
      as (c3 & E3 & T3 & N3 & K3 & M3); [done | done | lia | |].
    { rewrite M2, M1, !not_elem_of_app, !list_elem_of_singleton.
      repeat split; congruence. }
    destruct (add_requested_member_inserts team_id d4 r4 c3)
      as (c4 & E4 & T4 & N4 & K4 & M4); [done | done | lia | |].
    { rewrite M3, M2, M1, !not_elem_of_app, !list_elem_of_singleton.
      repeat split; congruence. }
    exists c1, c2, c3, c4. eexists. repeat split; try done.
    + unfold add_requested_member.
      replace (AddTeamMemberRequest.team_id r5) with team_id by done.
      apply add_team_member_full; [done | lia].
    + cbn [logged session]. lia.
    + cbn [logged committed]. rewrite K4. lia.
Qed.

(** C2. [add_team_member] fails with [InvalidTeamId] when the team does not
    exist; otherwise with [TeamFull] when the team has four members or
    more; otherwise it inserts the row, commits, and returns the new
    identifier, the store accepting an identifier it does not hold yet.
    Whatever it raises, the data of the store is unchanged. *)
Theorem add_team_member_sequence (draw : N)
    (team_id name email phone_number grade school_name city pin_code : string)
    (c : Connection) :
  let call :=
    DataHandler.add_team_member draw team_id name email phone_number grade
      school_name city pin_code in
  let row :=
    {| team_members_id := DataHandler.generate_id draw;
       team_members_team_id := team_id;
       team_members_name := name;
       team_members_email := email;
       team_members_phone_number := phone_number;
       team_members_grade := grade;
       team_members_school_name := school_name;
       team_members_city := city;
       team_members_pin_code := pin_code |} in
  (¬ team_exists team_id (session c) →
     call c = (Raise InvalidTeamId, logged [Execute (SelectTeamOne team_id)] c))
  ∧ (team_exists team_id (session c) →
     4 ≤ member_count team_id (session c) →
     call c = (Raise TeamFull,
               logged [Execute (SelectTeamOne team_id);
                       Execute (SelectMemberOne team_id)] c))
  ∧ (team_exists team_id (session c) →
     member_count team_id (session c) < 4 →
     DataHandler.generate_id draw ∉ member_ids (session c) →
     call c = (Return (DataHandler.generate_id draw),
               stored (InsertMember row)
                 [Execute (SelectTeamOne team_id);
                  Execute (SelectMemberOne team_id);
                  Execute (InsertMember row);
                  Commit] c))
  ∧ (∀ e c', call c = (Raise e, c') →
     session c' = session c ∧ committed c' = committed c).
Proof.
  intros call row. repeat split.
  - apply add_team_member_missing.
  - apply add_team_member_full.
  - apply add_team_member_inserts.
  - eapply add_team_member_raise_unchanged; eassumption.
  - eapply add_team_member_raise_unchanged; eassumption.
Qed.

End GatewayClaims.

(** ** C7, C8, C9: registration, passwords and team creation *)

Section Credentials.

Context `{SecureHash}.

(** [register_user] in one equation: the store rejects the row and the
    method raises [UserMailExists], or the row is stored and committed. *)
Lemma register_user_cases (draw : N) (s : salt) (email password : string)
    (c : Connection) :
  let row := user_row draw s email password in
  DataHandler.register_user draw s email password c =
    if violates (session c) (InsertUser row)
    then (Raise UserMailExists, logged [Execute (InsertUser row)] c)
    else (Return (DataHandler.generate_id draw),
          stored (InsertUser row) [Execute (InsertUser row); Commit] c).
Proof.
  intros row. subst row.
  unfold DataHandler.register_user, DataHandler.hash_password, user_row.
  unfold mbind, Py_bind, try_except, execute.
  destruct (violates _ _); [reflexivity|].
  unfold commit, mret, Py_ret, stored. cbn [session committed executed].
  by rewrite <- app_assoc.
Qed.

Lemma register_user_returned (draw : N) (s : salt) (email password id : string)
    (c c' : Connection) :
  DataHandler.register_user draw s email password c = (Return id, c') →
  let row := user_row draw s email password in
  violates (session c) (InsertUser row) = false
  ∧ id = DataHandler.generate_id draw
  ∧ c' = stored (InsertUser row) [Execute (InsertUser row); Commit] c.
Proof.
  rewrite register_user_cases. cbv zeta.
  destruct (violates _ _); [discriminate|]. by intros [= <- <-].
Qed.




(** C8. A second registration of an email whose first registration
    returned raises [UserMailExists], and the store still holds the first
    registration's row, with its identifier, email and password hash, in
    unchanged tables. *)
Theorem register_same_email_twice (d1 d2 : N) (s1 s2 : salt)
    (email p1 p2 id1 : string) (c c1 : Connection) :
  DataHandler.register_user d1 s1 email p1 c = (Return id1, c1) →
  ∃ c2,
    DataHandler.register_user d2 s2 email p2 c1 = (Raise UserMailExists, c2)
    ∧ session c2 = session c1
    ∧ committed c2 = committed c1
    ∧ {| users_id := id1; users_email := email;
         users_password := hashpw p1 s1 |} ∈ users (session c2)
    ∧ {| users_id := id1; users_email := email;
         users_password := hashpw p1 s1 |} ∈ users (committed c2).
Proof.
  intros Hreg. apply register_user_returned in Hreg as (Hok & -> & ->).
  eexists. rewrite register_user_cases. cbv zeta.
  replace (violates _ _) with true.
  - split; [reflexivity|]. cbn [logged stored session committed apply users].
    repeat split; apply elem_of_app; right; by left.
  - symmetry. cbn [violates stored session apply users user_row users_email].
    apply orb_true_iff. right. apply bool_decide_eq_true.
    rewrite fmap_app. apply elem_of_app. right. by left.
Qed.

End Credentials.

Section TeamCreation.

Lemma create_team_cases (draw : N) (user_id name : string) (c : Connection) :
  let row := team_row draw user_id name in
  DataHandler.create_team draw user_id name c =
    if violates (session c) (InsertTeam row)
    then (Raise UserMailExists, logged [Execute (InsertTeam row)] c)
    else (Return (DataHandler.generate_id draw),
          stored (InsertTeam row) [Execute (InsertTeam row); Commit] c).
Proof.
  intros row. subst row. unfold DataHandler.create_team, team_row.
  unfold mbind, Py_bind, try_except, execute.
  destruct (violates _ _); [reflexivity|].
  unfold commit, mret, Py_ret, stored. cbn [session committed executed].
  by rewrite <- app_assoc.
Qed.

(** C9, as the code has it.  When the store rejects the insert,
    [create_team] raises [UserMailExists], the very exception
    [register_user] raises for an email already present; otherwise it
    stores the team, commits, and returns the new identifier. *)
Theorem create_team_rejected_as_mail_exists `{SecureHash} (draw : N)
    (user_id name : string) (c : Connection) :
  let row := team_row draw user_id name in
  (violates (session c) (InsertTeam row) = true →
     DataHandler.create_team draw user_id name c =
       (Raise UserMailExists, logged [Execute (InsertTeam row)] c)
     ∧ ∀ d s email password c',
         violates (session c') (InsertUser (user_row d s email password)) = true →
         (DataHandler.register_user d s email password c').1 =
           (DataHandler.create_team draw user_id name c).1)
  ∧ (violates (session c) (InsertTeam row) = false →
     DataHandler.create_team draw user_id name c =
       (Return (DataHandler.generate_id draw),
        stored (InsertTeam row) [Execute (InsertTeam row); Commit] c)).
Proof.
  intros row. split.
  - intros Hbad. split.
    + rewrite create_team_cases. cbv zeta. fold row. by rewrite Hbad.
    + intros d s email password c' Hdup.
      rewrite register_user_cases, create_team_cases. cbv zeta.
      fold row. by rewrite Hbad, Hdup.
  - intros Hok. rewrite create_team_cases. cbv zeta. fold row. by rewrite Hok.
Qed.

End TeamCreation.

(** ** The endpoints *)

Section Endpoints.

Import Main.
Context `{SecureHash}.

Lemma get_id_rejected (cookies : CookiesBase.t) :
  token_rejected cookies → get_id cookies = Raise AuthenticationFailure.
Proof.
  unfold token_rejected, get_id.
  by destruct (checkpw _ _) as [[]|].
Qed.

Lemma get_id_cases (cookies : CookiesBase.t) :
  get_id cookies =
    if decide (checkpw (CookiesBase.user_id cookies)
                       (CookiesBase.hashed_user_id cookies) = Some true)
    then Return (CookiesBase.user_id cookies)
    else Raise AuthenticationFailure.
Proof.
  unfold get_id. destruct (checkpw _ _) as [[]|]; by case_decide.
Qed.

Lemma get_id_returned (cookies : CookiesBase.t) (user_id : string) :
  get_id cookies = Return user_id → user_id = CookiesBase.user_id cookies.
Proof. rewrite get_id_cases. case_decide; congruence. Qed.

Lemma get_id_issued (user_id : string) (s : salt) :
  get_id {| CookiesBase.user_id := user_id;
            CookiesBase.hashed_user_id := hashpw user_id s |} = Return user_id.
Proof. unfold get_id. simpl. by rewrite checkpw_hashpw. Qed.

Lemma team_owner_missing (team_id : string) (db : Database) :
  team_owner team_id db = None ↔ ¬ team_exists team_id db.
Proof.
  rewrite team_exists_rows. unfold team_owner.
  destruct (filter _ _); simpl; split; try done.
  - by intros _ Hne.
  - by intros [].
Qed.

(** The owner query: the first matching row's [user_id], or
    [InvalidTeamId]; the query is on record either way. *)
Lemma get_user_id_for_team_cases (team_id : string) (c : Connection) :
  DataHandler.get_user_id_for_team team_id c =
    (match team_owner team_id (session c) with
     | Some owner => Return owner
     | None => Raise InvalidTeamId
     end,
     logged [Execute (SelectTeamUserId team_id)] c).
Proof.
  unfold DataHandler.get_user_id_for_team, mbind, Py_bind.
  rewrite execute_select by reflexivity.
  unfold team_owner. cbn [fetchall].
  by destruct (filter _ _).
Qed.

Lemma owner_matches_cases (team_id : string) (cookies : CookiesBase.t)
    (c : Connection) :
  owner_matches team_id cookies c =
    (match team_owner team_id (session c) with
     | None => Raise InvalidTeamId
     | Some owner =>
         match get_id cookies with
         | Raise e => Raise e
         | Return user_id =>
             if bool_decide (owner = user_id) then Return tt
             else Raise AssertionError
         end
     end,
     logged [Execute (SelectTeamUserId team_id)] c).
Proof.
  unfold owner_matches, mbind, Py_bind. rewrite get_user_id_for_team_cases.
  destruct (team_owner _ _) as [owner|]; [|done].
  unfold lift, assert. destruct (get_id cookies) as [user_id|e]; [|done].
  by destruct (bool_decide _).
Qed.

(** X23. The three endpoints that verify the token before anything else,
    [create_team], [add_team_member] and [get_teams]: a rejected token ends
    them at once with [logged_in = false], the connection untouched. *)
Lemma rejected_token_fails_closed (cookies : CookiesBase.t) (c : Connection) :
  token_rejected cookies →
  (∀ draw request,
     create_team draw cookies request c =
       (Return {| CreateTeamResponse.team_id := inr (-1)%Z;
                  CreateTeamResponse.success := false;
                  CreateTeamResponse.logged_in := false |}, c))
  ∧ (∀ draw request,
       add_team_member draw cookies request c =
         (Return (add_team_member_response false false true true true), c))
  ∧ get_teams cookies c =
      (Return {| GetTeamsResponse.team_ids := [];
                 GetTeamsResponse.success := false;
                 GetTeamsResponse.logged_in := false |}, c).
Proof.
  intros Hrej%get_id_rejected.
  unfold create_team, add_team_member, get_teams, try_return, lift.
  rewrite Hrej. done.
Qed.

End Endpoints.

(** ** C3, C5, C6, C10: what the endpoints answer *)

Section EndpointClaims.

Import Main.
Context `{SecureHash}.

(** C3, as the code has it.  With a token pair that fails verification,
    [get_team_members] and [get_team_member_details] have already queried
    the store for the team's owner: they answer [logged_in = false] only
    when the team exists and let [InvalidTeamId] through when it does not.
    [get_current_id] lets the [ValueError] of a malformed proof through. *)
Theorem rejected_token_reaches_store (cookies : CookiesBase.t) (c : Connection) :
  token_rejected cookies →
  (∀ team_id,
     get_team_members cookies {| GetTeamMemberRequest.team_id := team_id |} c =
       (match team_owner team_id (session c) with
        | Some _ => Return (team_members_response [] false false true)
        | None => Raise InvalidTeamId
        end,
        logged [Execute (SelectTeamUserId team_id)] c))
  ∧ (∀ team_id team_member_id,
       get_team_member_details cookies
         {| GetTeamMemberDetailsRequest.team_id := team_id;
            GetTeamMemberDetailsRequest.team_member_id := team_member_id |} c =
         (match team_owner team_id (session c) with
          | Some _ => Return (member_details_response None false false true true)
          | None => Raise InvalidTeamId
          end,
          logged [Execute (SelectTeamUserId team_id)] c))
  ∧ (checkpw (CookiesBase.user_id cookies)
             (CookiesBase.hashed_user_id cookies) = None →
     get_current_id cookies c = (Raise ValueError, c)).
Proof.
  intros Hrej. pose proof (get_id_rejected cookies Hrej) as Hid.
  split; [|split].
  - intros team_id. unfold get_team_members, try_return.
    rewrite owner_matches_cases, Hid. cbn [GetTeamMemberRequest.team_id].
    by destruct (team_owner _ _).
  - intros team_id team_member_id. unfold get_team_member_details, try_return.
    rewrite owner_matches_cases, Hid. cbn [GetTeamMemberDetailsRequest.team_id].
    by destruct (team_owner _ _).
  - intros Hnone. unfold get_current_id. by rewrite Hnone.
Qed.

(** C5. An authenticated user who is not the recorded owner of an existing
    team gets [user_team_match = false] from each team-scoped endpoint; the
    data of the store is as before, the one call made being the owner
    query; and the response carries no member data: it is the same
    whatever the store holds besides that team's owner. *)
Theorem non_owner_is_refused (cookies : CookiesBase.t)
    (user_id team_id owner : string) (c : Connection) :
  get_id cookies = Return user_id →
  team_owner team_id (session c) = Some owner →
  owner ≠ user_id →
  let c' := logged [Execute (SelectTeamUserId team_id)] c in
  (∀ draw request,
     AddTeamMemberRequest.team_id request = team_id →
     add_team_member draw cookies request c =
       (Return (add_team_member_response false true true true false), c'))
  ∧ get_team_members cookies {| GetTeamMemberRequest.team_id := team_id |} c =
      (Return (team_members_response [] false true false), c')
  ∧ (∀ team_member_id,
       get_team_member_details cookies
         {| GetTeamMemberDetailsRequest.team_id := team_id;
            GetTeamMemberDetailsRequest.team_member_id := team_member_id |} c =
         (Return (member_details_response None false true false true), c'))
  ∧ (∀ c2, team_owner team_id (session c2) = Some owner →
       (get_team_members cookies
          {| GetTeamMemberRequest.team_id := team_id |} c2).1 =
         Return (team_members_response [] false true false)
       ∧ ∀ team_member_id,
           (get_team_member_details cookies
              {| GetTeamMemberDetailsRequest.team_id := team_id;
                 GetTeamMemberDetailsRequest.team_member_id := team_member_id |}
              c2).1 =
             Return (member_details_response None false true false true)).
Proof.
  intros Hid Howner Hne c'.
  assert (Hmembers : ∀ c2, team_owner team_id (session c2) = Some owner →
            get_team_members cookies
              {| GetTeamMemberRequest.team_id := team_id |} c2 =
              (Return (team_members_response [] false true false),
               logged [Execute (SelectTeamUserId team_id)] c2)).
  { intros c2 H2. unfold get_team_members, try_return.
    rewrite owner_matches_cases, Hid. cbn [GetTeamMemberRequest.team_id].
    by rewrite H2, bool_decide_eq_false_2. }
  assert (Hdetails : ∀ c2 team_member_id,
            team_owner team_id (session c2) = Some owner →
            get_team_member_details cookies
              {| GetTeamMemberDetailsRequest.team_id := team_id;
                 GetTeamMemberDetailsRequest.team_member_id := team_member_id |}
              c2 =
              (Return (member_details_response None false true false true),
               logged [Execute (SelectTeamUserId team_id)] c2)).
  { intros c2 team_member_id H2. unfold get_team_member_details, try_return.
    rewrite owner_matches_cases, Hid. cbn [GetTeamMemberDetailsRequest.team_id].
    by rewrite H2, bool_decide_eq_false_2. }
  split; [|split; [|split]].
  - intros draw request <-. unfold add_team_member, try_return, lift.
    rewrite Hid. unfold mbind, Py_bind.
    rewrite get_user_id_for_team_cases, Howner. unfold assert.
    by rewrite bool_decide_eq_false_2.
  - by apply Hmembers.
  - intros team_member_id. by apply Hdetails.
  - intros c2 H2. split.
    + by rewrite Hmembers.
    + intros team_member_id. by rewrite Hdetails.
Qed.

(** C6, as the code has it.  For an authenticated request that names a
    team that does not exist, [add_team_member] answers with
    [team_created = false], while [get_team_members] and
    [get_team_member_details] raise [InvalidTeamId], which no [except]
    clause of theirs catches. *)
Theorem missing_team_unhandled (cookies : CookiesBase.t)
    (user_id team_id : string) (c : Connection) :
  get_id cookies = Return user_id →
  ¬ team_exists team_id (session c) →
  let c' := logged [Execute (SelectTeamUserId team_id)] c in
  get_team_members cookies {| GetTeamMemberRequest.team_id := team_id |} c =
    (Raise InvalidTeamId, c')
  ∧ (∀ team_member_id,
       get_team_member_details cookies
         {| GetTeamMemberDetailsRequest.team_id := team_id;
            GetTeamMemberDetailsRequest.team_member_id := team_member_id |} c =
         (Raise InvalidTeamId, c'))
  ∧ (∀ draw request,
       AddTeamMemberRequest.team_id request = team_id →
       add_team_member draw cookies request c =
         (Return (add_team_member_response false true true false false), c')).
Proof.
  intros Hid Hmissing%team_owner_missing c'. split; [|split].
  - unfold get_team_members, try_return.
    rewrite owner_matches_cases. cbn [GetTeamMemberRequest.team_id].
    by rewrite Hmissing.
  - intros team_member_id. unfold get_team_member_details, try_return.
    rewrite owner_matches_cases. cbn [GetTeamMemberDetailsRequest.team_id].
    by rewrite Hmissing.
  - intros draw request <-. unfold add_team_member, try_return, lift.
    rewrite Hid. unfold mbind, Py_bind.
    by rewrite get_user_id_for_team_cases, Hmissing.
Qed.

(** C10. A registration request whose password has fewer than eight
    characters is answered with [id = "-1"], [success = false] and
    [password_acceptable = false]; no cookie is set, and the connection is
    what it was: no call reached the store. *)
Theorem short_password_refused (draw : N) (password_salt token_salt : salt)
    (request : RegisterRequest.t) (c : Connection) :
  String.length (RegisterRequest.password request) < 8 →
  register draw password_salt token_salt request c =
    (Return (register_response "-1" false true false, []), c).
Proof.
  intros Hshort. unfold register. by rewrite bool_decide_eq_true_2.
Qed.

End EndpointClaims.

(** ** C4: the identity token *)

Section IdentityToken.

Import Main.
Context `{SecureHash}.

Lemma presented_issued (id proof : string) :
  presented [("user_id"%string, id); ("hashed_user_id"%string, proof)] =
    Some {| CookiesBase.user_id := id; CookiesBase.hashed_user_id := proof |}.
Proof. reflexivity. Qed.

(** A successful registration sets the pair for the new identifier. *)
Lemma register_issues (draw : N) (password_salt token_salt : salt)
    (request : RegisterRequest.t) (c c' : Connection)
    (response : RegisterResponse.t) (cookies : SetCookies) :
  register draw password_salt token_salt request c = (Return (response, cookies), c') →
  RegisterResponse.success response = true →
  cookies = [("user_id"%string, RegisterResponse.id response);
             ("hashed_user_id"%string,
              hashpw (RegisterResponse.id response) token_salt)].
Proof.
  unfold register. destruct (bool_decide _).
  - by intros [= <- <- <-].
  - unfold try_return. rewrite register_user_cases. cbv zeta.
    destruct (violates _ _).
    + by intros [= <- <- <-].
    + by intros [= <- <- <-].
Qed.

Lemma verify_password_connection (email password : string) (c : Connection) :
  (DataHandler.verify_password email password c).2 =
    logged [Execute (SelectUserPassword email)] c.
Proof.
  unfold DataHandler.verify_password, mbind, Py_bind.
  rewrite execute_select by reflexivity.
  destruct (fetchall _ _) as [|row rows]; [done|].
  by destruct (checkpw _ _).
Qed.

Lemma get_user_id_returned (email id : string) (c c' : Connection) :
  DataHandler.get_user_id email c = (Return id, c') →
  ∃ row, row ∈ users (session c) ∧ users_email row = email ∧ users_id row = id.
Proof.
  unfold DataHandler.get_user_id, mbind, Py_bind.
  rewrite execute_select by reflexivity. cbn [fetchall].
  destruct (filter _ _) as [|row rows] eqn:Hrows; [done|].
  intros [= <- _]. exists row.
  assert (Hin : row ∈ filter (λ r, users_email r = email) (users (session c)))
    by (rewrite Hrows; left).
  apply list_elem_of_filter in Hin as [Hmail Hin]. done.
Qed.

(** A successful login sets the pair for the identifier stored with the
    email. *)
Lemma login_issues (token_salt : salt) (request : LoginRequest.t)
    (c c' : Connection) (response : LoginResponse.t) (cookies : SetCookies) :
  login token_salt request c = (Return (response, cookies), c') →
  LoginResponse.success response = true →
  ∃ row,
    row ∈ users (session c)
    ∧ users_email row = LoginRequest.email request
    ∧ cookies = [("user_id"%string, users_id row);
                 ("hashed_user_id"%string, hashpw (users_id row) token_salt)].
Proof.
  unfold login, try_return, mbind, Py_bind.
  pose proof (verify_password_connection (LoginRequest.email request)
                (LoginRequest.password request) c) as Hconn.
  destruct (DataHandler.verify_password _ _ c) as [[[]|e] c1].
  - cbn [negb]. simpl in Hconn. subst c1.
    destruct (DataHandler.get_user_id _ _) as [[id|e] c2] eqn:Hid.
    + intros [= <- <- <-] _.
      apply get_user_id_returned in Hid as (row & Hin & Hmail & <-).
      by exists row.
    + destruct e; intros [= <- <- <-]; done.
  - by intros [= <- <- <-].
  - destruct e; intros [= <- <- <-]; done.
Qed.

(** C4, amended.  The pair a successful registration or login sets
    verifies for its identifier: the new user's, or the one stored with the
    email.  Verification accepts a presented pair
    exactly when the hash accepts the proof for the identifier: so the
    issued proof presented with another identifier is rejected, the hash
    being collision free, and an altered proof is rejected unless it is
    itself a digest the hash accepts for that identifier. *)
Theorem issued_token_verifies :
  (∀ draw password_salt token_salt request c c' response cookies,
     register draw password_salt token_salt request c =
       (Return (response, cookies), c') →
     RegisterResponse.success response = true →
     ∃ token, presented cookies = Some token
              ∧ get_id token = Return (RegisterResponse.id response))
  ∧ (∀ token_salt request c c' response cookies,
       login token_salt request c = (Return (response, cookies), c') →
       LoginResponse.success response = true →
       ∃ token row,
         presented cookies = Some token
         ∧ row ∈ users (session c)
         ∧ users_email row = LoginRequest.email request
         ∧ get_id token = Return (users_id row))
  ∧ (collision_free →
     ∀ user_id s altered,
       altered ≠ user_id →
       get_id {| CookiesBase.user_id := altered;
                 CookiesBase.hashed_user_id := hashpw user_id s |} =
         Raise AuthenticationFailure)
  ∧ (∀ user_id altered,
       get_id {| CookiesBase.user_id := user_id;
                 CookiesBase.hashed_user_id := altered |} =
         if decide (checkpw user_id altered = Some true)
         then Return user_id else Raise AuthenticationFailure).
Proof.
  split; [|split; [|split]].
  - intros draw password_salt token_salt request c c' response cookies Hreg Hok.
    rewrite (register_issues _ _ _ _ _ _ _ _ Hreg Hok), presented_issued.
    eexists. split; [done|]. apply get_id_issued.
  - intros token_salt request c c' response cookies Hlogin Hok.
    destruct (login_issues _ _ _ _ _ _ Hlogin Hok) as (row & Hin & Hmail & ->).
    rewrite presented_issued. eexists. exists row.
    repeat split; [done | done |]. apply get_id_issued.
  - intros Hfree user_id s altered Hne. apply get_id_rejected.
    unfold token_rejected. simpl. intros Hacc. by apply Hfree in Hacc.
  - intros user_id altered. apply get_id_cases.
Qed.

(** Whatever salt the issued proof was made with, a proof made for the same
    identifier with any other salt verifies as well. *)
Lemma proof_under_any_salt_verifies (user_id : string) (s s' : salt) :
  get_id {| CookiesBase.user_id := user_id;
            CookiesBase.hashed_user_id := hashpw user_id s' |} =
  get_id {| CookiesBase.user_id := user_id;
            CookiesBase.hashed_user_id := hashpw user_id s |}.
Proof. by rewrite !get_id_issued. Qed.

End IdentityToken.

(** ** The properties on the example data *)

Lemma plain_hash_collision_free : collision_free (H := plain_hash).
Proof.
  intros value value' s. cbn. unfold plain_checkpw, plain_hashpw.
  intros [= Heq]. by apply bool_decide_eq_true in Heq.
Qed.

Lemma team_never_exceeds_four_witness :
  within_capacity "100007"
    (perform_all (H := plain_hash)
       [AddTeamMember 15 "100007" "m5" "m@x.com" "5550100" "9" "High School"
          "Springfield" "560001";
        AddDocument 3 "100007" "/docs/a.pdf";
        AddTeamMember 16 "100007" "m6" "m@x.com" "5550100" "9" "High School"
          "Springfield" "560001"]
       Example.full_team)
  ∧ add_requested_member 15 (Example.request "100007" "m5") Example.full_team =
      (Raise TeamFull,
       logged [Execute (SelectTeamOne "100007");
               Execute (SelectMemberOne "100007")] Example.full_team)
  ∧ ∃ c1 c2 c3 c4 c5,
      add_requested_member 11 (Example.request "100007" "m1") Example.one_team =
        (Return "100011"%string, c1)
      ∧ add_requested_member 12 (Example.request "100007" "m2") c1 =
          (Return "100012"%string, c2)
      ∧ add_requested_member 13 (Example.request "100007" "m3") c2 =
          (Return "100013"%string, c3)
      ∧ add_requested_member 14 (Example.request "100007" "m4") c3 =
          (Return "100014"%string, c4)
      ∧ add_requested_member 15 (Example.request "100007" "m5") c4 =
          (Raise TeamFull, c5)
      ∧ member_count "100007" (session c5) = 4
      ∧ member_count "100007" (committed c5) = 4.
Proof.
  assert (Hfull : team_exists "100007" (session Example.full_team)) by by_evaluation.
  assert (Hone : team_exists "100007" (session Example.one_team)) by by_evaluation.
  assert (Cfull : within_capacity "100007" Example.full_team)
    by by_evaluation.
  destruct (team_never_exceeds_four (H := plain_hash) "100007"
              Example.full_team Hfull) as (Hinv & Hraise & _).
  destruct (team_never_exceeds_four (H := plain_hash) "100007"
              Example.one_team Hone) as (_ & _ & Hfive).
  split; [apply (Hinv Cfull) | split].
  - apply Hraise; by_evaluation.
  - apply (Hfive ltac:(by_evaluation) 11 12 13 14 15)%N; by_evaluation.
Defined.

Lemma add_team_member_sequence_witness :
  DataHandler.add_team_member 11 "999999" "m1" "m@x.com" "5550100" "9"
    "High School" "Springfield" "560001" Example.one_team =
    (Raise InvalidTeamId,
     logged [Execute (SelectTeamOne "999999")] Example.one_team)
  ∧ DataHandler.add_team_member 15 "100007" "m5" "m@x.com" "5550100" "9"
      "High School" "Springfield" "560001" Example.full_team =
      (Raise TeamFull,
       logged [Execute (SelectTeamOne "100007");
               Execute (SelectMemberOne "100007")] Example.full_team)
  ∧ (DataHandler.add_team_member 11 "100007" "m1" "m@x.com" "5550100" "9"
       "High School" "Springfield" "560001" Example.one_team).1 =
      Return "100011"%string.
Proof.
  split; [|split].
  - apply (add_team_member_sequence 11 "999999" "m1" "m@x.com" "5550100" "9"
             "High School" "Springfield" "560001" Example.one_team).
    by_evaluation.
  - apply (add_team_member_sequence 15 "100007" "m5" "m@x.com" "5550100" "9"
             "High School" "Springfield" "560001" Example.full_team);
      by_evaluation.
  - destruct (add_team_member_sequence 11 "100007" "m1" "m@x.com" "5550100" "9"
                "High School" "Springfield" "560001" Example.one_team)
      as (_ & _ & Hinsert & _).
    rewrite Hinsert by by_evaluation. reflexivity.
Defined.

Lemma rejected_token_reaches_store_witness :
  Main.get_team_members (H := plain_hash) Example.malformed_cookies
    {| Main.GetTeamMemberRequest.team_id := "999999" |} Example.one_team =
    (Raise InvalidTeamId,
     logged [Execute (SelectTeamUserId "999999")] Example.one_team)
  ∧ Main.get_team_members (H := plain_hash) Example.forged_cookies
      {| Main.GetTeamMemberRequest.team_id := "100007" |} Example.one_team =
      (Return (team_members_response [] false false true),
       logged [Execute (SelectTeamUserId "100007")] Example.one_team)
  ∧ Main.get_current_id (H := plain_hash) Example.malformed_cookies
      Example.one_team = (Raise ValueError, Example.one_team).
Proof.
  assert (Hmal : token_rejected (H := plain_hash) Example.malformed_cookies)
    by by_evaluation.
  assert (Hforged : token_rejected (H := plain_hash) Example.forged_cookies)
    by by_evaluation.
  split; [|split].
  - apply (rejected_token_reaches_store Example.malformed_cookies
             Example.one_team Hmal).
  - apply (rejected_token_reaches_store Example.forged_cookies
             Example.one_team Hforged).
  - apply (rejected_token_reaches_store Example.malformed_cookies
             Example.one_team Hmal). reflexivity.
Defined.

Lemma issued_token_verifies_witness :
  (∃ token,
     presented [("user_id"%string, "100001"%string);
                ("hashed_user_id"%string, plain_hashpw "100001" "t")] = Some token
     ∧ Main.get_id (H := plain_hash) token = Return "100001"%string)
  ∧ Main.get_id (H := plain_hash)
      {| Main.CookiesBase.user_id := "100002";
         Main.CookiesBase.hashed_user_id := plain_hashpw "100001" "t" |} =
      Raise AuthenticationFailure
  ∧ Main.get_id (H := plain_hash)
      {| Main.CookiesBase.user_id := "100001";
         Main.CookiesBase.hashed_user_id := plain_hashpw "100002" "t" |} =
      Raise AuthenticationFailure.
Proof.
  destruct (issued_token_verifies (H := plain_hash))
    as (Hregister & _ & Hidentifier & Hproof).
  split; [|split].
  - apply (Hregister 1%N "s"%char "t"%char
             {| Main.RegisterRequest.email := "a@x.com";
                Main.RegisterRequest.password := "password1" |}
             Example.nobody _ _ _ eq_refl eq_refl).
  - apply (Hidentifier plain_hash_collision_free "100001"%string "t"%char
             "100002"%string). by_evaluation.
  - rewrite Hproof. reflexivity.
Defined.

(** C4 as stated does not hold: the proof field altered into another digest
    of the same identifier still verifies. *)
Lemma reissued_proof_accepted :
  let issued :=
    {| Main.CookiesBase.user_id := "100001";
       Main.CookiesBase.hashed_user_id := plain_hashpw "100001" "t" |} in
  let altered :=
    {| Main.CookiesBase.user_id := "100001";
       Main.CookiesBase.hashed_user_id := plain_hashpw "100001" "K" |} in
  Main.CookiesBase.hashed_user_id altered ≠ Main.CookiesBase.hashed_user_id issued
  ∧ Main.get_id (H := plain_hash) issued = Return "100001"%string
  ∧ Main.get_id (H := plain_hash) altered = Return "100001"%string.
Proof. split; [by_evaluation | split; reflexivity]. Qed.

Lemma non_owner_is_refused_witness :
  Main.add_team_member (H := plain_hash) 15 Example.stranger_cookies
    (Example.request "100007" "m5") Example.full_team =
    (Return (Main.add_team_member_response false true true true false),
     logged [Execute (SelectTeamUserId "100007")] Example.full_team)
  ∧ Main.get_team_members (H := plain_hash) Example.stranger_cookies
      {| Main.GetTeamMemberRequest.team_id := "100007" |} Example.full_team =
      (Return (team_members_response [] false true false),
       logged [Execute (SelectTeamUserId "100007")] Example.full_team)
  ∧ Main.get_team_member_details (H := plain_hash) Example.stranger_cookies
      {| Main.GetTeamMemberDetailsRequest.team_id := "100007";
         Main.GetTeamMemberDetailsRequest.team_member_id := "100011" |}
      Example.full_team =
      (Return (member_details_response None false true false true),
       logged [Execute (SelectTeamUserId "100007")] Example.full_team).
Proof.
  destruct (non_owner_is_refused (H := plain_hash) Example.stranger_cookies
              "222222" "100007" "100001" Example.full_team
              eq_refl eq_refl ltac:(by_evaluation))
    as (Hadd & Hmembers & Hdetails & _).
  split; [|split].
  - by apply Hadd.
  - exact Hmembers.
  - apply Hdetails.
Defined.

Lemma missing_team_unhandled_witness :
  Main.get_team_members (H := plain_hash) Example.owner_cookies
    {| Main.GetTeamMemberRequest.team_id := "999999" |} Example.one_team =
    (Raise InvalidTeamId,
     logged [Execute (SelectTeamUserId "999999")] Example.one_team)
  ∧ Main.get_team_member_details (H := plain_hash) Example.owner_cookies
      {| Main.GetTeamMemberDetailsRequest.team_id := "999999";
         Main.GetTeamMemberDetailsRequest.team_member_id := "100011" |}
      Example.one_team =
      (Raise InvalidTeamId,
       logged [Execute (SelectTeamUserId "999999")] Example.one_team)
  ∧ Main.add_team_member (H := plain_hash) 11 Example.owner_cookies
      (Example.request "999999" "m1") Example.one_team =
      (Return (Main.add_team_member_response false true true false false),
       logged [Execute (SelectTeamUserId "999999")] Example.one_team).
Proof.
  destruct (missing_team_unhandled (H := plain_hash) Example.owner_cookies
              "100001" "999999" Example.one_team
              eq_refl ltac:(by_evaluation))
    as (Hmembers & Hdetails & Hadd).
  split; [|split].
  - exact Hmembers.
  - apply Hdetails.
  - by apply Hadd.
Defined.



Lemma register_same_email_twice_witness :
  ∃ c2,
    DataHandler.register_user (H := plain_hash) 2 "u"%char "a@x.com" "password2"
      (DataHandler.register_user (H := plain_hash) 1 "s"%char "a@x.com"
         "password1" Example.nobody).2 = (Raise UserMailExists, c2)
    ∧ {| users_id := "100001"; users_email := "a@x.com";
         users_password := plain_hashpw "password1" "s" |} ∈ users (session c2).
Proof.
  destruct (register_same_email_twice (H := plain_hash) 1 2 "s"%char "u"%char
              "a@x.com" "password1" "password2" "100001" Example.nobody _ eq_refl)
    as (c2 & Hraise & _ & _ & Hrow & _).
  exists c2. split; [exact Hraise | exact Hrow].
Defined.

Lemma create_team_rejected_as_mail_exists_witness :
  DataHandler.create_team 7 "100001" "Team B" Example.one_team =
    (Raise UserMailExists,
     logged [Execute (InsertTeam (team_row 7 "100001" "Team B"))] Example.one_team)
  ∧ (DataHandler.register_user (H := plain_hash) 2 "u"%char "a@x.com" "password2"
       Example.one_team).1 =
    (DataHandler.create_team 7 "100001" "Team B" Example.one_team).1
  ∧ (DataHandler.create_team 8 "100001" "Team B" Example.one_team).1 =
      Return "100008"%string.
Proof.
  destruct (create_team_rejected_as_mail_exists (H := plain_hash) 7 "100001"
              "Team B" Example.one_team) as (Hrejected & _).
  destruct (Hrejected eq_refl) as (Hraise & Hsame).
  split; [exact Hraise | split].
  - apply Hsame. reflexivity.
  - destruct (create_team_rejected_as_mail_exists (H := plain_hash) 8 "100001"
                "Team B" Example.one_team) as (_ & Haccepted).
    rewrite Haccepted by reflexivity. reflexivity.
Defined.

(** The scenario of the specification ends with a login under a wrong
    password: the email is reported correct, the password incorrect, and no
    cookie is set. *)
Lemma login_with_wrong_password :
  (Main.login (H := plain_hash) "t"%char
     {| Main.LoginRequest.email := "a@x.com";
        Main.LoginRequest.password := "password2" |} Example.full_team).1 =
    Return ({| Main.LoginResponse.success := false;
               Main.LoginResponse.email_correct := true;
               Main.LoginResponse.password_correct := false |}, []).
Proof. vm_compute. reflexivity. Qed.

Lemma short_password_refused_witness :
  Main.register (H := plain_hash) 1 "s"%char "t"%char
    {| Main.RegisterRequest.email := "a@x.com";
       Main.RegisterRequest.password := "passwor" |} Example.nobody =
    (Return (register_response "-1" false true false, []), Example.nobody).
Proof.
  apply (short_password_refused (H := plain_hash)). by_evaluation.
Defined.

(** * Further properties of the gateway *)

(** ** Each query in one equation *)

Section Queries.

Context `{SecureHash}.

Lemma verify_password_cases (email password : string) (c : Connection) :
  DataHandler.verify_password email password c =
    (match user_with_email email (session c) with
     | None => Raise InvalidEmail
     | Some row =>
         match checkpw password (users_password row) with
         | Some correct => Return correct
         | None => Raise ValueError
         end
     end,
     logged [Execute (SelectUserPassword email)] c).
Proof.
  unfold DataHandler.verify_password, mbind, Py_bind.
  rewrite execute_select by reflexivity.
  unfold user_with_email. cbn [fetchall].
  destruct (filter _ _) as [|row rows]; [done|].
  change (cell 0 [users_password row]) with (users_password row).
  cbn [fmap list_fmap head]. by destruct (checkpw _ _).
Qed.

Lemma get_user_id_cases (email : string) (c : Connection) :
  DataHandler.get_user_id email c =
    (match user_with_email email (session c) with
     | None => Raise InvalidEmail
     | Some row => Return (users_id row)
     end,
     logged [Execute (SelectUserId email)] c).
Proof.
  unfold DataHandler.get_user_id, mbind, Py_bind.
  rewrite execute_select by reflexivity.
  unfold user_with_email. cbn [fetchall].
  by destruct (filter _ _).
Qed.

Lemma get_user_teams_eq (user_id : string) (c : Connection) :
  DataHandler.get_user_teams user_id c =
    (Return (teams_of_user user_id (session c)),
     logged [Execute (SelectUserTeams user_id)] c).
Proof.
  unfold DataHandler.get_user_teams, mbind, Py_bind.
  rewrite execute_select by reflexivity.
  unfold teams_of_user, mret, Py_ret. cbn [fetchall].
  by rewrite <- list_fmap_compose.
Qed.

Lemma get_team_members_eq (team_id : string) (c : Connection) :
  DataHandler.get_team_members team_id c =
    (Return (member_ids_of_team team_id (session c)),
     logged [Execute (SelectMemberIds team_id)] c).
Proof.
  unfold DataHandler.get_team_members, mbind, Py_bind.
  rewrite execute_select by reflexivity.
  unfold member_ids_of_team, mret, Py_ret. cbn [fetchall].
  by rewrite <- list_fmap_compose.
Qed.

Lemma get_team_member_details_cases (team_id team_member_id : string)
    (c : Connection) :
  DataHandler.get_team_member_details team_id team_member_id c =
    (match member_in_team team_member_id team_id (session c) with
     | None => Raise NoSuchTeamMember
     | Some row => Return (details_of row)
     end,
     logged [Execute (SelectMemberDetails team_member_id team_id)] c).
Proof.
  unfold DataHandler.get_team_member_details, mbind, Py_bind.
  rewrite execute_select by reflexivity.
  unfold member_in_team. cbn [fetchall].
  by destruct (filter _ _).
Qed.

Lemma user_with_email_none (email : string) (db : Database) :
  user_with_email email db = None ↔ email ∉ users_email <$> users db.
Proof.
  unfold user_with_email. rewrite list_elem_of_fmap. split.
  - destruct (filter _ _) as [|r rows] eqn:Hrows; [|done].
    intros _ (r & -> & Hr). by eapply (filter_nil_not_elem_of _ (users db) r Hrows).
  - intros Hnone. destruct (filter _ _) as [|r rows] eqn:Hrows; [done|].
    assert (Hin : r ∈ filter (λ r, users_email r = email) (users db))
      by (rewrite Hrows; left).
    apply list_elem_of_filter in Hin as [<- Hin]. destruct Hnone. eauto.
Qed.

Lemma member_in_team_none (team_member_id team_id : string) (db : Database) :
  member_in_team team_member_id team_id db = None ↔
  ¬ ∃ row, row ∈ team_members db ∧ team_members_id row = team_member_id
           ∧ team_members_team_id row = team_id.
Proof.
  unfold member_in_team. split.
  - destruct (filter _ _) as [|r rows] eqn:Hrows; [|done].
    intros _ (r & Hr & Hid & Hteam).
    by eapply (filter_nil_not_elem_of _ (team_members db) r Hrows).
  - intros Hnone. destruct (filter _ _) as [|r rows] eqn:Hrows; [done|].
    assert (Hin : r ∈ filter (λ r, team_members_id r = team_member_id
                                   ∧ team_members_team_id r = team_id)
                      (team_members db))
      by (rewrite Hrows; left).
    apply list_elem_of_filter in Hin as [[Hid Hteam] Hin]. destruct Hnone. eauto.
Qed.

End Queries.

(** ** What every method keeps *)

Section EveryMethod.

Context `{SecureHash}.
Variable I : Connection → Prop.
Hypothesis I_execute : ∀ q, preserves I (execute q).
Hypothesis I_commit : preserves I commit.

Ltac kept :=
  repeat first
    [ apply preserves_ret
    | apply preserves_raise
    | apply I_commit
    | apply I_execute
    | apply preserves_rows; [|intros ?]
    | apply preserves_bind; [|intros ?]
    | apply preserves_try_except; [|intros [] ? [= <-]]
    | match goal with
      | |- preserves _ (match ?x with _ => _ end) => destruct x
      | |- preserves _ (if ?b then _ else _) => destruct b
      end ].

(** An invariant of [execute] and [commit] is an invariant of every method
    of the gateway. *)
Lemma perform_preserves (op : Operation) (c : Connection) :
  I c → I (perform op c).
Proof.
  intros Hc.
  destruct op; cbn [perform];
    match goal with
    | |- _ (?m c).2 => revert c Hc; change (preserves I m)
    end.
  - unfold DataHandler.register_user. kept.
  - unfold DataHandler.verify_password. kept.
  - unfold DataHandler.get_user_id. kept.
  - unfold DataHandler.create_team. kept.
  - unfold DataHandler.get_user_id_for_team. kept.
  - unfold DataHandler.add_team_member. kept.
  - unfold DataHandler.get_user_teams. kept.
  - unfold DataHandler.get_team_members. kept.
  - unfold DataHandler.get_team_member_details. kept.
  - unfold DataHandler.add_document. kept.
Qed.

Lemma perform_all_preserves (ops : list Operation) (c : Connection) :
  I c → I (perform_all ops c).
Proof.
  revert c. induction ops as [|op ops IH]; intros c Hc; [done|].
  apply IH, perform_preserves, Hc.
Qed.

End EveryMethod.

(** ** Rows are only ever added *)

Lemma grown_refl (db : Database) : grown db db.
Proof. by repeat split. Qed.

Lemma grown_apply (db0 db : Database) (q : Statement) :
  grown db0 db → grown db0 (apply db q).
Proof.
  intros (Hu & Ht & Hm & Hd).
  destruct q; try done; repeat split; cbn [apply users teams team_members documents];
    try done; by apply prefix_app_r.
Qed.

Lemma session_grows `{SecureHash} (ops : list Operation) (c : Connection) :
  grown (session c) (session (perform_all ops c)).
Proof.
  apply (perform_all_preserves (λ c', grown (session c) (session c'))).
  - intros q c' Hc'. unfold execute.
    destruct (violates _ _); cbn [snd session]; [done|]. by apply grown_apply.
  - by intros c' Hc'.
  - apply grown_refl.
Qed.

Lemma head_filter_prefix {A} (P : A → Prop) `{∀ x, Decision (P x)}
    (l l' : list A) (x : A) :
  l `prefix_of` l' → head (filter P l) = Some x → head (filter P l') = Some x.
Proof.
  intros [k ->] Hhead. rewrite filter_app.
  destruct (filter P l); [done|]. done.
Qed.

(** X2. No method of the gateway deletes or rewrites a row: after any
    sequence of operations each table of the session is the table it was,
    with rows added at its end. *)
Theorem tables_only_grow `{SecureHash} (ops : list Operation) (c : Connection) :
  users (session c) `prefix_of` users (session (perform_all ops c))
  ∧ teams (session c) `prefix_of` teams (session (perform_all ops c))
  ∧ team_members (session c) `prefix_of`
      team_members (session (perform_all ops c))
  ∧ documents (session c) `prefix_of` documents (session (perform_all ops c)).
Proof. apply session_grows. Qed.

(** X3. What a lookup has answered once it answers for good: the owner of
    a team, the identifier stored with an email, the verdict on a password
    and the details of a member are the same after any sequence of gateway
    operations. *)
Theorem answers_are_stable `{SecureHash} (ops : list Operation) (c : Connection) :
  (∀ team_id owner,
     (DataHandler.get_user_id_for_team team_id c).1 = Return owner →
     (DataHandler.get_user_id_for_team team_id (perform_all ops c)).1 =
       Return owner)
  ∧ (∀ email id,
       (DataHandler.get_user_id email c).1 = Return id →
       (DataHandler.get_user_id email (perform_all ops c)).1 = Return id)
  ∧ (∀ email password correct,
       (DataHandler.verify_password email password c).1 = Return correct →
       (DataHandler.verify_password email password (perform_all ops c)).1 =
         Return correct)
  ∧ (∀ team_id team_member_id details,
       (DataHandler.get_team_member_details team_id team_member_id c).1 =
         Return details →
       (DataHandler.get_team_member_details team_id team_member_id
          (perform_all ops c)).1 = Return details).
Proof.
  destruct (session_grows ops c) as (Hu & Ht & Hm & _).
  split; [|split; [|split]].
  - intros team_id owner. rewrite !get_user_id_for_team_cases. cbn [fst].
    unfold team_owner.
    destruct (head (filter _ (teams (session c)))) as [row|] eqn:Hrow; [|done].
    by rewrite (head_filter_prefix _ _ _ _ Ht Hrow).
  - intros email id. rewrite !get_user_id_cases. cbn [fst].
    unfold user_with_email.
    destruct (head (filter _ (users (session c)))) as [row|] eqn:Hrow; [|done].
    by rewrite (head_filter_prefix _ _ _ _ Hu Hrow).
  - intros email password correct. rewrite !verify_password_cases. cbn [fst].
    unfold user_with_email.
    destruct (head (filter _ (users (session c)))) as [row|] eqn:Hrow; [|done].
    by rewrite (head_filter_prefix _ _ _ _ Hu Hrow).
  - intros team_id team_member_id details.
    rewrite !get_team_member_details_cases. cbn [fst]. unfold member_in_team.
    destruct (head (filter _ (team_members (session c)))) as [row|] eqn:Hrow;
      [|done].
    by rewrite (head_filter_prefix _ _ _ _ Hm Hrow).
Qed.

(** X4. The six query methods never change the data: whether they return
    or raise, the session and what is committed are what they were. *)
Theorem queries_leave_data `{SecureHash} (c : Connection) :
  (∀ email password,
     same_data c (DataHandler.verify_password email password c).2)
  ∧ (∀ email, same_data c (DataHandler.get_user_id email c).2)
  ∧ (∀ team_id, same_data c (DataHandler.get_user_id_for_team team_id c).2)
  ∧ (∀ user_id, same_data c (DataHandler.get_user_teams user_id c).2)
  ∧ (∀ team_id, same_data c (DataHandler.get_team_members team_id c).2)
  ∧ (∀ team_id team_member_id,
       same_data c
         (DataHandler.get_team_member_details team_id team_member_id c).2).
Proof.
  repeat split; intros;
    rewrite ?verify_password_cases, ?get_user_id_cases,
      ?get_user_id_for_team_cases, ?get_user_teams_eq, ?get_team_members_eq,
      ?get_team_member_details_cases; done.
Qed.

(** X5. [verify_password] and [get_user_id] raise [InvalidEmail] exactly
    when no user is stored with the email. *)
Theorem invalid_email_iff_unknown `{SecureHash} (email : string) (c : Connection) :
  (∀ password,
     (DataHandler.verify_password email password c).1 = Raise InvalidEmail
     ↔ email ∉ users_email <$> users (session c))
  ∧ ((DataHandler.get_user_id email c).1 = Raise InvalidEmail
     ↔ email ∉ users_email <$> users (session c)).
Proof.
  split; [intros password|];
    rewrite <- user_with_email_none;
    rewrite ?verify_password_cases, ?get_user_id_cases; cbn [fst];
    destruct (user_with_email _ _) as [row|]; try done.
  destruct (checkpw _ _); split; done.
Qed.

(** ** Identifiers, again *)

Lemma pretty_N_char_digit (x : N) :
  48 ≤ nat_of_ascii (pretty_N_char x) ≤ 57.
Proof. unfold pretty_N_char. repeat case_match; compute_done. Qed.

(** The numeral of a number from 100000 to 999999, digit by digit. *)
Lemma pretty_six_digits (n : N) :
  (100000 ≤ n < 1000000)%N →
  ∃ d1 d2 d3 d4 d5 d6 : N,
    pretty n =
      String (pretty_N_char d1) (String (pretty_N_char d2)
        (String (pretty_N_char d3) (String (pretty_N_char d4)
          (String (pretty_N_char d5) (String (pretty_N_char d6) ""))))).
Proof.
  intros Hn. unfold pretty, pretty_N.
  rewrite decide_False by lia.
  set (n1 := (n / 10)%N). set (n2 := (n1 / 10)%N). set (n3 := (n2 / 10)%N).
  set (n4 := (n3 / 10)%N). set (n5 := (n4 / 10)%N).
  assert (H1 : (10000 ≤ n1 < 100000)%N).
  { split; [apply N.div_le_lower_bound | apply N.Div0.div_lt_upper_bound]; lia. }
  assert (H2 : (1000 ≤ n2 < 10000)%N).
  { split; [apply N.div_le_lower_bound | apply N.Div0.div_lt_upper_bound]; lia. }
  assert (H3 : (100 ≤ n3 < 1000)%N).
  { split; [apply N.div_le_lower_bound | apply N.Div0.div_lt_upper_bound]; lia. }
  assert (H4 : (10 ≤ n4 < 100)%N).
  { split; [apply N.div_le_lower_bound | apply N.Div0.div_lt_upper_bound]; lia. }
  assert (H5 : (1 ≤ n5 < 10)%N).
  { split; [apply N.div_le_lower_bound | apply N.Div0.div_lt_upper_bound]; lia. }
  rewrite (pretty_N_go_step n) by lia. fold n1.
  rewrite (pretty_N_go_step n1) by lia. fold n2.
  rewrite (pretty_N_go_step n2) by lia. fold n3.
  rewrite (pretty_N_go_step n3) by lia. fold n4.
  rewrite (pretty_N_go_step n4) by lia. fold n5.
  rewrite (pretty_N_go_step n5) by lia.
  rewrite (N.div_small n5) by lia.
  rewrite pretty_N_go_0. by do 6 eexists.
Qed.

(** X1. An identifier is the decimal numeral of a number from 100000 to
    999999: it has six characters and each of them is a decimal digit. *)
Theorem generate_id_six_digits (draw : N) :
  (∃ n : N, (100000 ≤ n ≤ 999999)%N ∧ DataHandler.generate_id draw = pretty n)
  ∧ String.length (DataHandler.generate_id draw) = 6
  ∧ Forall (λ a, 48 ≤ nat_of_ascii a ≤ 57)
      (String.list_ascii_of_string (DataHandler.generate_id draw)).
Proof.
  unfold DataHandler.generate_id.
  change (1000000 - 100000)%N with 900000%N.
  pose proof (randbelow_lt draw 900000 ltac:(lia)) as Hlt.
  revert Hlt. generalize (randbelow draw 900000). intros r Hr.
  split; [exists (r + 100000)%N; split; [lia | done]|].
  destruct (pretty_six_digits (r + 100000)) as (d1 & d2 & d3 & d4 & d5 & d6 & ->);
    [lia|].
  split; [reflexivity|]. cbn [String.list_ascii_of_string].
  repeat (apply Forall_cons; split; [apply pretty_N_char_digit|]).
  apply Forall_nil. done.
Qed.

(** ** Insert, then look up *)

Section RoundTrips.

Context `{SecureHash}.

Lemma filter_fresh {A B} `{EqDecision B} (f : A → B) (b : B) (l : list A) :
  b ∉ f <$> l → filter (λ r, f r = b) l = [].
Proof.
  intros Hfresh. destruct (filter _ _) as [|r rows] eqn:Hrows; [done|].
  assert (Hin : r ∈ filter (λ r, f r = b) l) by (rewrite Hrows; left).
  apply list_elem_of_filter in Hin as [<- Hin].
  destruct Hfresh. by apply list_elem_of_fmap_2.
Qed.

Lemma user_accepted (draw : N) (s : salt) (email password : string)
    (db : Database) :
  email ∉ users_email <$> users db →
  DataHandler.generate_id draw ∉ users_id <$> users db →
  violates db (InsertUser (user_row draw s email password)) = false.
Proof.
  intros Hmail Hid. cbn [violates user_row users_id users_email].
  by rewrite !bool_decide_eq_false_2.
Qed.

Lemma team_accepted (draw : N) (user_id name : string) (db : Database) :
  user_id ∈ users_id <$> users db →
  DataHandler.generate_id draw ∉ teams_id <$> teams db →
  violates db (InsertTeam (team_row draw user_id name)) = false.
Proof.
  intros Huser Hid. cbn [violates team_row teams_id teams_user_id].
  rewrite bool_decide_eq_false_2 by done. by rewrite bool_decide_eq_true_2.
Qed.

(** X6. After [register_user] returned for an email and an identifier the
    store did not hold, [get_user_id] for that email returns the identifier
    [register_user] returned. *)
Theorem register_then_get_user_id (draw : N) (s : salt)
    (email password : string) (c : Connection) :
  email ∉ users_email <$> users (session c) →
  DataHandler.generate_id draw ∉ users_id <$> users (session c) →
  ∃ id c',
    DataHandler.register_user draw s email password c = (Return id, c')
    ∧ (DataHandler.get_user_id email c').1 = Return id.
Proof.
  intros Hmail Hid. do 2 eexists. split.
  - rewrite register_user_cases. cbv zeta. by rewrite user_accepted.
  - rewrite get_user_id_cases. cbn [fst stored session].
    unfold user_with_email. cbn [apply users]. rewrite filter_app.
    rewrite (filter_fresh users_email) by done.
    rewrite filter_singleton_True; [done | exact [] | done].
Qed.

(** X7. After [create_team] returned for a stored user and an identifier
    the store did not hold, [get_user_id_for_team] answers the creating user
    for the new identifier, and [get_user_teams] lists the new team together
    with the teams it listed before, in some order. *)
Theorem create_team_then_look_up (draw : N) (user_id name : string)
    (c : Connection) :
  user_id ∈ users_id <$> users (session c) →
  DataHandler.generate_id draw ∉ teams_id <$> teams (session c) →
  ∃ id c' before after,
    DataHandler.create_team draw user_id name c = (Return id, c')
    ∧ (DataHandler.get_user_id_for_team id c').1 = Return user_id
    ∧ (DataHandler.get_user_teams user_id c).1 = Return before
    ∧ (DataHandler.get_user_teams user_id c').1 = Return after
    ∧ after ≡ₚ {| DataHandler.Team.id := id; DataHandler.Team.name := name |}
               :: before.
Proof.
  intros Huser Hid. do 4 eexists. split; [|split; [|split; [|split]]].
  - rewrite create_team_cases. cbv zeta. by rewrite team_accepted.
  - rewrite get_user_id_for_team_cases. cbn [fst stored session].
    unfold team_owner. cbn [apply teams]. rewrite filter_app.
    rewrite (filter_fresh teams_id) by done.
    rewrite filter_singleton_True; [done | exact [] | done].
  - by rewrite get_user_teams_eq.
  - by rewrite get_user_teams_eq.
  - cbn [stored session]. unfold teams_of_user. cbn [apply teams].
    rewrite filter_app, fmap_app.
    rewrite filter_singleton_True; [|exact []|done].
    symmetry. apply Permutation_cons_append.
Qed.

(** X9. After [add_team_member] returned, [get_team_members] for the team
    lists the new identifier together with the identifiers it listed before,
    in some order. *)
Theorem add_team_member_then_list (draw : N)
    (team_id name email phone_number grade school_name city pin_code : string)
    (c : Connection) :
  team_exists team_id (session c) →
  member_count team_id (session c) < 4 →
  DataHandler.generate_id draw ∉ member_ids (session c) →
  ∃ id c' before after,
    DataHandler.add_team_member draw team_id name email phone_number grade
      school_name city pin_code c = (Return id, c')
    ∧ (DataHandler.get_team_members team_id c).1 = Return before
    ∧ (DataHandler.get_team_members team_id c').1 = Return after
    ∧ after ≡ₚ id :: before.
Proof.
  intros Hteam Hroom Hfresh. do 4 eexists. split; [|split; [|split]].
  - by apply add_team_member_inserts.
  - by rewrite get_team_members_eq.
  - by rewrite get_team_members_eq.
  - cbn [stored session]. unfold member_ids_of_team. cbn [apply team_members].
    rewrite filter_app, fmap_app.
    rewrite filter_singleton_True; [|exact []|done].
    symmetry. apply Permutation_cons_append.
Qed.

(** X10. After [add_team_member] returned, [get_team_member_details] for
    the team and the new identifier returns the fields the member was added
    with. *)
Theorem add_team_member_then_details (draw : N)
    (team_id name email phone_number grade school_name city pin_code : string)
    (c : Connection) :
  team_exists team_id (session c) →
  member_count team_id (session c) < 4 →
  DataHandler.generate_id draw ∉ member_ids (session c) →
  ∃ id c',
    DataHandler.add_team_member draw team_id name email phone_number grade
      school_name city pin_code c = (Return id, c')
    ∧ (DataHandler.get_team_member_details team_id id c').1 =
        Return {| DataHandler.TeamMemberDetails.name := name;
                  DataHandler.TeamMemberDetails.email := email;
                  DataHandler.TeamMemberDetails.phone_number := phone_number;
                  DataHandler.TeamMemberDetails.grade := grade;
                  DataHandler.TeamMemberDetails.school_name := school_name;
                  DataHandler.TeamMemberDetails.city := city;
                  DataHandler.TeamMemberDetails.pin_code := pin_code;
                  DataHandler.TeamMemberDetails.team_id := team_id |}.
Proof.
  intros Hteam Hroom Hfresh. do 2 eexists. split.
  - by apply add_team_member_inserts.
  - rewrite get_team_member_details_cases. cbn [fst stored session].
    unfold member_in_team. cbn [apply team_members]. rewrite filter_app.
    replace (filter _ (team_members (session c))) with (@nil MemberRow).
    + rewrite filter_singleton_True; [done | exact [] | done].
    + symmetry. destruct (filter _ _) as [|r rows] eqn:Hrows; [done|].
      assert (Hin : r ∈ filter
                (λ r, team_members_id r = DataHandler.generate_id draw
                      ∧ team_members_team_id r = team_id)
                (team_members (session c)))
        by (rewrite Hrows; left).
      apply list_elem_of_filter in Hin as [[Hid _] Hin].
      destruct Hfresh. rewrite <- Hid. by apply list_elem_of_fmap_2.
Qed.

(** X11. [get_team_member_details] raises [NoSuchTeamMember] exactly when
    no row carries both the member identifier and the team identifier: the
    identifier of a member of another team is not enough. *)
Theorem no_such_member_iff (team_id team_member_id : string) (c : Connection) :
  (DataHandler.get_team_member_details team_id team_member_id c).1 =
    Raise NoSuchTeamMember
  ↔ ¬ ∃ row, row ∈ team_members (session c)
             ∧ team_members_id row = team_member_id
             ∧ team_members_team_id row = team_id.
Proof.
  rewrite <- member_in_team_none, get_team_member_details_cases. cbn [fst].
  by destruct (member_in_team _ _ _).
Qed.

(** X12. [get_team_members] never raises and does not ask whether the team
    exists: it returns as many identifiers as the team has member rows; none
    for an unknown team, every member row naming a stored team; and at most
    four after any sequence of gateway operations on a store that was within
    capacity. *)
Theorem get_team_members_bounded (team_id : string) (c : Connection) :
  (∃ ids, (DataHandler.get_team_members team_id c).1 = Return ids
          ∧ length ids = member_count team_id (session c))
  ∧ (members_have_teams (session c) →
     ¬ team_exists team_id (session c) →
     (DataHandler.get_team_members team_id c).1 = Return [])
  ∧ (within_capacity team_id c →
     ∀ ops, ∃ ids,
       (DataHandler.get_team_members team_id (perform_all ops c)).1 = Return ids
       ∧ length ids ≤ 4).
Proof.
  split; [|split].
  - eexists. rewrite get_team_members_eq. split; [done|].
    unfold member_ids_of_team, member_count. by rewrite length_fmap.
  - intros Hparents Hunknown. rewrite get_team_members_eq. cbn [fst]. f_equal.
    unfold member_ids_of_team.
    destruct (filter _ _) as [|row rows] eqn:Hrows; [done|].
    assert (Hin : row ∈ filter (λ r, team_members_team_id r = team_id)
                      (team_members (session c)))
      by (rewrite Hrows; left).
    apply list_elem_of_filter in Hin as [Hteam Hin].
    unfold members_have_teams in Hparents. rewrite Forall_forall in Hparents.
    destruct Hunknown. rewrite <- Hteam. by apply Hparents.
  - intros Hcap ops. eexists. rewrite get_team_members_eq. split; [done|].
    unfold member_ids_of_team. rewrite length_fmap.
    by apply (capacity_perform_all team_id ops c Hcap).
Qed.

End RoundTrips.

(** ** What is committed *)

Section Commits.

Context `{SecureHash}.

Lemma add_document_cases (draw : N) (team_id path : string) (c : Connection) :
  let row := document_row draw team_id path in
  DataHandler.add_document draw team_id path c =
    if violates (session c) (InsertDocument row)
    then (Raise IntegrityError, logged [Execute (InsertDocument row)] c)
    else (Return (DataHandler.generate_id draw),
          {| session := apply (session c) (InsertDocument row);
             committed := committed c;
             executed := executed c ++ [Execute (InsertDocument row)] |}).
Proof.
  intros row. subst row. unfold DataHandler.add_document, document_row.
  unfold mbind, Py_bind, execute. by destruct (violates _ _).
Qed.

(** X13. [add_document] stores its row in the session without committing
    it; the row is committed by the next method that commits, here a
    [register_user] that returns. *)
Theorem add_document_left_pending (draw draw' : N) (s : salt)
    (team_id path email password : string) (c : Connection) :
  DataHandler.generate_id draw ∉ documents_id <$> documents (session c) →
  email ∉ users_email <$> users (session c) →
  DataHandler.generate_id draw' ∉ users_id <$> users (session c) →
  let row := document_row draw team_id path in
  ∃ c' c'',
    DataHandler.add_document draw team_id path c =
      (Return (DataHandler.generate_id draw), c')
    ∧ documents (session c') = documents (session c) ++ [row]
    ∧ committed c' = committed c
    ∧ DataHandler.register_user draw' s email password c' =
        (Return (DataHandler.generate_id draw'), c'')
    ∧ row ∈ documents (committed c'').
Proof.
  intros Hdoc Hmail Hid row. do 2 eexists. split; [|split; [|split; [|split]]].
  - rewrite add_document_cases. cbv zeta.
    cbn [violates document_row documents_id].
    by rewrite bool_decide_eq_false_2.
  - done.
  - done.
  - rewrite register_user_cases. cbv zeta. by rewrite user_accepted.
  - cbn [stored committed session apply documents].
    apply elem_of_app. right. by left.
Qed.

(** X14. [register_user], [create_team] and [add_team_member] commit when
    they return and only then: after a return everything in the session is
    committed, and after a raise session and committed data are what they
    were. *)
Theorem commit_on_return_only (c : Connection) :
  (∀ draw s email password,
     match DataHandler.register_user draw s email password c with
     | (Return _, c') => committed c' = session c'
     | (Raise _, c') => same_data c c'
     end)
  ∧ (∀ draw user_id name,
       match DataHandler.create_team draw user_id name c with
       | (Return _, c') => committed c' = session c'
       | (Raise _, c') => same_data c c'
       end)
  ∧ (∀ draw team_id name email phone_number grade school_name city pin_code,
       match DataHandler.add_team_member draw team_id name email phone_number
               grade school_name city pin_code c with
       | (Return _, c') => committed c' = session c'
       | (Raise _, c') => same_data c c'
       end).
Proof.
  split; [|split].
  - intros. rewrite register_user_cases. cbv zeta. by destruct (violates _ _).
  - intros. rewrite create_team_cases. cbv zeta. by destruct (violates _ _).
  - intros.
    destruct (decide (team_exists team_id (session c))) as [Hteam|Hmissing].
    + destruct (decide (4 ≤ member_count team_id (session c))) as [Hfull|Hroom].
      * by rewrite add_team_member_full.
      * destruct (decide (DataHandler.generate_id draw ∈ member_ids (session c))).
        -- by rewrite add_team_member_collision by (done || lia).
        -- by rewrite add_team_member_inserts by (done || lia).
    + by rewrite add_team_member_missing.
Qed.

End Commits.

(** * Further properties of the endpoints *)

Section EndpointCases.

Import Main.
Context `{SecureHash}.

(** [register] past the length check, in one equation. *)
Lemma register_cases (draw : N) (password_salt token_salt : salt)
    (request : RegisterRequest.t) (c : Connection) :
  8 ≤ String.length (RegisterRequest.password request) →
  let row := user_row draw password_salt (RegisterRequest.email request)
               (RegisterRequest.password request) in
  register draw password_salt token_salt request c =
    if violates (session c) (InsertUser row)
    then (Return (register_response "-1" false false true, []),
          logged [Execute (InsertUser row)] c)
    else (Return (register_response (DataHandler.generate_id draw) true true true,
                  token_cookies (DataHandler.generate_id draw) token_salt),
          stored (InsertUser row) [Execute (InsertUser row); Commit] c).
Proof.
  intros Hlong row. subst row. unfold register.
  rewrite bool_decide_eq_false_2 by lia.
  unfold try_return. rewrite register_user_cases. cbv zeta.
  by destruct (violates _ _).
Qed.

(** [login] in one equation. *)
Lemma login_cases (token_salt : salt) (request : LoginRequest.t) (c : Connection) :
  login token_salt request c =
    match user_with_email (LoginRequest.email request) (session c) with
    | None =>
        (Return (login_response false false true, []),
         logged [Execute (SelectUserPassword (LoginRequest.email request))] c)
    | Some row =>
        match checkpw (LoginRequest.password request) (users_password row) with
        | None =>
            (Raise ValueError,
             logged [Execute (SelectUserPassword (LoginRequest.email request))] c)
        | Some false =>
            (Return (login_response false true false, []),
             logged [Execute (SelectUserPassword (LoginRequest.email request))] c)
        | Some true =>
            (Return (login_response true true true,
                     token_cookies (users_id row) token_salt),
             logged [Execute (SelectUserPassword (LoginRequest.email request));
                     Execute (SelectUserId (LoginRequest.email request))] c)
        end
    end.
Proof.
  unfold login, try_return, mbind, Py_bind.
  rewrite verify_password_cases.
  destruct (user_with_email _ _) as [row|] eqn:Hrow; [|done].
  destruct (checkpw _ _) as [[]|]; [|done|done].
  cbn [negb]. rewrite get_user_id_cases.
  change (session (logged _ c)) with (session c). rewrite Hrow.
  by rewrite logged_logged.
Qed.

Lemma team_owner_exists (team_id owner : string) (db : Database) :
  team_owner team_id db = Some owner → team_exists team_id db.
Proof.
  intros Howner. destruct (decide (team_exists team_id db)) as [|Hmissing]; [done|].
  apply team_owner_missing in Hmissing. congruence.
Qed.

(** [add_team_member] for the verified owner of the team: what the gateway
    answers, with the two owner checks on record before it. *)
Lemma add_team_member_as_owner (draw : N) (cookies : CookiesBase.t)
    (request : AddTeamMemberRequest.t) (user_id : string) (c : Connection) :
  get_id cookies = Return user_id →
  team_owner (AddTeamMemberRequest.team_id request) (session c) = Some user_id →
  add_team_member draw cookies request c =
    match add_requested_member draw request
            (logged [Execute (SelectTeamUserId
                                (AddTeamMemberRequest.team_id request))] c) with
    | (Return _, c') =>
        (Return (add_team_member_response true true true true true), c')
    | (Raise TeamFull, c') =>
        (Return (add_team_member_response false true false true true), c')
    | (Raise InvalidTeamId, c') =>
        (Return (add_team_member_response false true false false true), c')
    | (Raise e, c') => (Raise e, c')
    end.
Proof.
  intros Hid Howner. unfold add_team_member, try_return at 1 2, lift.
  rewrite Hid. unfold mbind, Py_bind.
  rewrite get_user_id_for_team_cases, Howner. unfold assert.
  rewrite bool_decide_eq_true_2 by done.
  unfold try_return, add_requested_member.
  destruct (DataHandler.add_team_member _ _ _ _ _ _ _ _ _ _) as [[id|[]] c'];
    done.
Qed.

End EndpointCases.

Section EndpointExtras.

Import Main.
Context `{SecureHash}.

(** X15. For a password of eight characters or more, [register] answers
    [email_unique = false] with identifier ["-1"] and sets no cookie whenever
    the store rejects the row: when the email is stored already, and also
    when the drawn identifier is, whatever the email.  The data is
    unchanged. *)
Theorem register_rejected (draw : N) (password_salt token_salt : salt)
    (request : RegisterRequest.t) (c : Connection) :
  8 ≤ String.length (RegisterRequest.password request) →
  RegisterRequest.email request ∈ users_email <$> users (session c)
  ∨ DataHandler.generate_id draw ∈ users_id <$> users (session c) →
  ∃ c',
    register draw password_salt token_salt request c =
      (Return (register_response "-1" false false true, []), c')
    ∧ same_data c c'.
Proof.
  intros Hlong Hstored. eexists. rewrite register_cases by done. cbv zeta.
  replace (violates _ _) with true; [done|].
  symmetry. cbn [violates user_row users_id users_email].
  apply orb_true_iff. destruct Hstored; [right | left];
    by apply bool_decide_eq_true_2.
Qed.

(** X16. A registration with a password of eight characters or more, an
    email and an identifier the store does not hold succeeds and sets the
    token pair of the new identifier; a login with the same email and
    password then succeeds and sets a token pair for that same identifier. *)
Theorem register_then_login (draw : N) (password_salt token_salt : salt)
    (request : RegisterRequest.t) (c : Connection) :
  8 ≤ String.length (RegisterRequest.password request) →
  RegisterRequest.email request ∉ users_email <$> users (session c) →
  DataHandler.generate_id draw ∉ users_id <$> users (session c) →
  ∃ c' c'',
    register draw password_salt token_salt request c =
      (Return (register_response (DataHandler.generate_id draw) true true true,
               token_cookies (DataHandler.generate_id draw) token_salt), c')
    ∧ ∀ token_salt',
        login token_salt'
          {| LoginRequest.email := RegisterRequest.email request;
             LoginRequest.password := RegisterRequest.password request |} c' =
          (Return (login_response true true true,
                   token_cookies (DataHandler.generate_id draw) token_salt'), c'').
Proof.
  intros Hlong Hmail Hid. do 2 eexists. split.
  - rewrite register_cases by done. cbv zeta. by rewrite user_accepted.
  - intros token_salt'. rewrite login_cases.
    cbn [LoginRequest.email LoginRequest.password stored session].
    unfold user_with_email. cbn [apply users]. rewrite filter_app.
    rewrite (filter_fresh users_email) by done.
    rewrite filter_singleton_True; [|exact []|done].
    cbn [app head user_row users_password users_id].
    by rewrite checkpw_hashpw.
Qed.

(** X17. [login] never changes the data and sets cookies only with a
    successful response.  An email no user is stored with is answered
    [email_correct = false]; a password the hash rejects for the stored
    digest is answered [password_correct = false]. *)
Theorem login_failures (token_salt : salt) (request : LoginRequest.t)
    (c : Connection) :
  same_data c (login token_salt request c).2
  ∧ (∀ response cookies c',
       login token_salt request c = (Return (response, cookies), c') →
       LoginResponse.success response = false → cookies = [])
  ∧ (LoginRequest.email request ∉ users_email <$> users (session c) →
     (login token_salt request c).1 =
       Return (login_response false false true, []))
  ∧ (∀ row,
       user_with_email (LoginRequest.email request) (session c) = Some row →
       checkpw (LoginRequest.password request) (users_password row) = Some false →
       (login token_salt request c).1 =
         Return (login_response false true false, [])).
Proof.
  rewrite login_cases. split; [|split; [|split]].
  - destruct (user_with_email _ _) as [row|]; [|done].
    by destruct (checkpw _ _) as [[]|].
  - intros response cookies c'.
    destruct (user_with_email _ _) as [row|]; [|by intros [= <- <- <-]].
    destruct (checkpw _ _) as [[]|]; [|by intros [= <- <- <-]|done].
    by intros [= <- <- <-].
  - intros Hunknown%user_with_email_none. by rewrite Hunknown.
  - intros row Hrow Hwrong. by rewrite Hrow, Hwrong.
Qed.

(** X18. For the verified owner of a team, [add_team_member] answers all
    flags true and the member's row is committed, the team having room and
    the identifier being new; on a team with four members or more it
    answers [space_available = false] and the data is unchanged. *)
Theorem owner_adds_member (draw : N) (cookies : CookiesBase.t)
    (request : AddTeamMemberRequest.t) (user_id : string) (c : Connection) :
  get_id cookies = Return user_id →
  team_owner (AddTeamMemberRequest.team_id request) (session c) = Some user_id →
  (member_count (AddTeamMemberRequest.team_id request) (session c) < 4 →
   DataHandler.generate_id draw ∉ member_ids (session c) →
   ∃ c',
     add_team_member draw cookies request c =
       (Return (add_team_member_response true true true true true), c')
     ∧ team_members (committed c') =
         team_members (session c) ++ [requested_row draw request])
  ∧ (4 ≤ member_count (AddTeamMemberRequest.team_id request) (session c) →
     ∃ c',
       add_team_member draw cookies request c =
         (Return (add_team_member_response false true false true true), c')
       ∧ same_data c c').
Proof.
  intros Hid Howner.
  pose proof (team_owner_exists _ _ _ Howner) as Hteam.
  split.
  - intros Hroom Hfresh. eexists.
    rewrite (add_team_member_as_owner _ _ _ _ _ Hid Howner).
    unfold add_requested_member.
    rewrite add_team_member_inserts by done. done.
  - intros Hfull. eexists.
    rewrite (add_team_member_as_owner _ _ _ _ _ Hid Howner).
    unfold add_requested_member.
    rewrite add_team_member_full by done. done.
Qed.

(** X19. Whatever the request, a response of [add_team_member] is one of
    five; the sixth the code can build, [team_created = false] with
    [user_team_match = true], is never returned: once the owner query has
    found the team, the gateway finds it too. *)
Theorem add_team_member_responses (draw : N) (cookies : CookiesBase.t)
    (request : AddTeamMemberRequest.t) (c c' : Connection)
    (response : AddTeamMemberResponse.t) :
  add_team_member draw cookies request c = (Return response, c') →
  response ∈ [add_team_member_response false false true true true;
              add_team_member_response false true true false false;
              add_team_member_response false true true true false;
              add_team_member_response true true true true true;
              add_team_member_response false true false true true]
  ∧ response ≠ add_team_member_response false true false false true.
Proof.
  intros Hcall.
  assert (Hin : response ∈
            [add_team_member_response false false true true true;
             add_team_member_response false true true false false;
             add_team_member_response false true true true false;
             add_team_member_response true true true true true;
             add_team_member_response false true false true true]).
  { revert Hcall.
    destruct (get_id cookies) as [user_id|e] eqn:Hid.
    - destruct (team_owner (AddTeamMemberRequest.team_id request) (session c))
        as [owner|] eqn:Howner.
      + destruct (decide (user_id = owner)) as [->|Hne].
        * rewrite (add_team_member_as_owner _ _ _ _ _ Hid Howner).
          unfold add_requested_member.
          pose proof (team_owner_exists _ _ _ Howner) as Hteam.
          set (c1 := logged _ c).
          assert (Hteam1 : team_exists (AddTeamMemberRequest.team_id request)
                             (session c1)) by done.
          destruct (decide (4 ≤ member_count
                              (AddTeamMemberRequest.team_id request) (session c1))).
          -- rewrite add_team_member_full by done. intros [= <- _].
             by repeat constructor.
          -- destruct (decide (DataHandler.generate_id draw
                                 ∈ member_ids (session c1))).
             ++ by rewrite add_team_member_collision by (done || lia).
             ++ rewrite add_team_member_inserts by (done || lia).
                intros [= <- _]. by repeat constructor.
        * unfold add_team_member, try_return, lift. rewrite Hid.
          unfold mbind, Py_bind.
          rewrite get_user_id_for_team_cases, Howner. unfold assert.
          rewrite bool_decide_eq_false_2 by done. intros [= <- _]. by repeat constructor.
      + unfold add_team_member, try_return, lift. rewrite Hid.
        unfold mbind, Py_bind.
        rewrite get_user_id_for_team_cases, Howner. intros [= <- _]. by repeat constructor.
    - unfold add_team_member, try_return, lift. rewrite Hid.
      destruct e; intros [= <- _]; by repeat constructor. }
  split; [done|]. intros ->.
  rewrite !elem_of_cons, elem_of_nil in Hin.
  unfold add_team_member_response in Hin.
  destruct Hin as [Heq|[Heq|[Heq|[Heq|[Heq|[]]]]]]; discriminate.
Qed.

End EndpointExtras.

Section TeamEndpoints.

Import Main.
Context `{SecureHash}.

(** X20. For a verified token of a stored user, [create_team] stores a
    team owned by the token's identifier, and [get_teams] with the same
    token then lists it together with the teams it listed before, in some
    order; when the store rejects the insert the endpoint lets
    [UserMailExists] through, having no [except] clause for it. *)
Theorem create_team_for_verified_user (draw : N) (cookies : CookiesBase.t)
    (request : CreateTeamRequest.t) (user_id : string) (c : Connection) :
  get_id cookies = Return user_id →
  (user_id ∈ users_id <$> users (session c) →
   DataHandler.generate_id draw ∉ teams_id <$> teams (session c) →
   ∃ c' before after,
     create_team draw cookies request c =
       (Return (create_team_response (inl (DataHandler.generate_id draw))
                  true true), c')
     ∧ team_owner (DataHandler.generate_id draw) (session c') = Some user_id
     ∧ (get_teams cookies c).1 = Return (get_teams_response before true true)
     ∧ (get_teams cookies c').1 = Return (get_teams_response after true true)
     ∧ after ≡ₚ {| DataHandler.Team.id := DataHandler.generate_id draw;
                   DataHandler.Team.name := CreateTeamRequest.team_name request |}
                :: before)
  ∧ (violates (session c)
       (InsertTeam (team_row draw user_id (CreateTeamRequest.team_name request)))
     = true →
     ∃ c',
       create_team draw cookies request c = (Raise UserMailExists, c')
       ∧ same_data c c').
Proof.
  intros Hid.
  assert (Hteams : ∀ c0, get_teams cookies c0 =
            (Return (get_teams_response (teams_of_user user_id (session c0))
                       true true),
             logged [Execute (SelectUserTeams user_id)] c0)).
  { intros c0. unfold get_teams, try_return, lift. rewrite Hid.
    unfold mbind, Py_bind. by rewrite get_user_teams_eq. }
  split.
  - intros Huser Hfresh. do 3 eexists. split; [|split; [|split; [|split]]].
    + unfold create_team, try_return, lift. rewrite Hid.
      unfold mbind, Py_bind. rewrite create_team_cases. cbv zeta.
      by rewrite team_accepted.
    + cbn [stored session]. unfold team_owner. cbn [apply teams].
      rewrite filter_app, (filter_fresh teams_id) by done.
      rewrite filter_singleton_True; [done | exact [] | done].
    + by rewrite Hteams.
    + by rewrite Hteams.
    + cbn [stored session]. unfold teams_of_user. cbn [apply teams].
      rewrite filter_app, fmap_app.
      rewrite filter_singleton_True; [|exact []|done].
      symmetry. apply Permutation_cons_append.
  - intros Hrejected. eexists.
    unfold create_team, try_return, lift. rewrite Hid.
    unfold mbind, Py_bind. rewrite create_team_cases. cbv zeta.
    by rewrite Hrejected.
Qed.

(** X8. For a verified token, [get_teams] succeeds and lists exactly the
    teams whose owner is the token's identifier: no team of another user is
    in the response.  The data is unchanged. *)
Theorem get_teams_lists_own_teams (cookies : CookiesBase.t) (user_id : string)
    (c : Connection) :
  get_id cookies = Return user_id →
  ∃ listed c',
    get_teams cookies c = (Return (get_teams_response listed true true), c')
    ∧ same_data c c'
    ∧ ∀ team, team ∈ listed ↔
        ∃ row, row ∈ teams (session c) ∧ teams_user_id row = user_id
               ∧ team = team_of row.
Proof.
  intros Hid. do 2 eexists. split; [|split].
  - unfold get_teams, try_return, lift. rewrite Hid.
    unfold mbind, Py_bind. by rewrite get_user_teams_eq.
  - done.
  - intros team. unfold teams_of_user. rewrite list_elem_of_fmap.
    split.
    + intros (row & -> & Hrow). apply list_elem_of_filter in Hrow as [Howner Hin].
      eauto.
    + intros (row & Hin & Howner & ->). exists row. split; [done|].
      by apply list_elem_of_filter.
Qed.

(** X21. For the verified owner of a team, [get_team_members] returns the
    identifiers of the team's members, and [get_team_member_details]
    returns the details of a member of that team and answers
    [team_member_exists = false] for any other identifier, a member of
    another team included. *)
Theorem owner_reads_members (cookies : CookiesBase.t) (user_id team_id : string)
    (c : Connection) :
  get_id cookies = Return user_id →
  team_owner team_id (session c) = Some user_id →
  (get_team_members cookies {| GetTeamMemberRequest.team_id := team_id |} c).1 =
    Return (team_members_response (member_ids_of_team team_id (session c))
              true true true)
  ∧ (∀ team_member_id row,
       member_in_team team_member_id team_id (session c) = Some row →
       (get_team_member_details cookies
          {| GetTeamMemberDetailsRequest.team_id := team_id;
             GetTeamMemberDetailsRequest.team_member_id := team_member_id |}
          c).1 =
         Return (member_details_response (Some (details_of row))
                   true true true true))
  ∧ (∀ team_member_id,
       (¬ ∃ row, row ∈ team_members (session c)
                 ∧ team_members_id row = team_member_id
                 ∧ team_members_team_id row = team_id) →
       (get_team_member_details cookies
          {| GetTeamMemberDetailsRequest.team_id := team_id;
             GetTeamMemberDetailsRequest.team_member_id := team_member_id |}
          c).1 =
         Return (member_details_response None false true true false)).
Proof.
  intros Hid Howner.
  assert (Hmatch : owner_matches team_id cookies c =
            (Return tt, logged [Execute (SelectTeamUserId team_id)] c)).
  { rewrite owner_matches_cases, Howner, Hid.
    by rewrite bool_decide_eq_true_2. }
  split; [|split].
  - unfold get_team_members, try_return.
    cbn [GetTeamMemberRequest.team_id]. rewrite Hmatch.
    unfold mbind, Py_bind. by rewrite get_team_members_eq.
  - intros team_member_id row Hrow.
    unfold get_team_member_details, try_return.
    cbn [GetTeamMemberDetailsRequest.team_id
         GetTeamMemberDetailsRequest.team_member_id].
    rewrite Hmatch, get_team_member_details_cases.
    change (session (logged _ c)) with (session c). by rewrite Hrow.
  - intros team_member_id Hnone%member_in_team_none.
    unfold get_team_member_details, try_return.
    cbn [GetTeamMemberDetailsRequest.team_id
         GetTeamMemberDetailsRequest.team_member_id].
    rewrite Hmatch, get_team_member_details_cases.
    change (session (logged _ c)) with (session c). by rewrite Hnone.
Qed.

(** X22. [get_current_id] makes no call on the connection, and it answers
    [success = true] with an identifier exactly when [get_id] returns that
    identifier for the same cookies. *)
Theorem get_current_id_agrees_with_get_id (cookie : CookiesBase.t)
    (c : Connection) :
  (get_current_id cookie c).2 = c
  ∧ ∀ user_id,
      get_id cookie = Return user_id
      ↔ (get_current_id cookie c).1 = Return (get_id_response user_id true).
Proof.
  unfold get_current_id, get_id.
  destruct (checkpw _ _) as [[]|]; (split; [done|]); intros user_id;
    split; intros [= ->]; done.
Qed.

End TeamEndpoints.

(** ** The further properties on the example data *)

Lemma answers_are_stable_witness :
  (DataHandler.get_user_id_for_team "100007"
     (perform_all (H := plain_hash)
        [CreateTeam 7 "222222" "Other"; CreateTeam 8 "100001" "Other"]
        Example.full_team)).1 = Return "100001"%string
  ∧ (DataHandler.verify_password (H := plain_hash) "a@x.com" "password1"
       (perform_all (H := plain_hash)
          [RegisterUser 2 "u"%char "a@x.com" "password2"] Example.full_team)).1 =
      Return true.
Proof.
  split.
  - apply (answers_are_stable (H := plain_hash)). reflexivity.
  - apply (answers_are_stable (H := plain_hash)). reflexivity.
Defined.

Lemma invalid_email_iff_unknown_witness :
  (DataHandler.verify_password (H := plain_hash) "b@x.com" "password1"
     Example.one_team).1 = Raise InvalidEmail
  ∧ (DataHandler.get_user_id "b@x.com" Example.one_team).1 = Raise InvalidEmail.
Proof.
  destruct (invalid_email_iff_unknown (H := plain_hash) "b@x.com"
              Example.one_team) as [Hverify Hid].
  split; [apply Hverify | apply Hid]; by_evaluation.
Defined.

Lemma register_then_get_user_id_witness :
  ∃ id c',
    DataHandler.register_user (H := plain_hash) 2 "u"%char "b@x.com" "password2"
      Example.one_team = (Return id, c')
    ∧ (DataHandler.get_user_id "b@x.com" c').1 = Return id.
Proof.
  apply (register_then_get_user_id (H := plain_hash)); by_evaluation.
Defined.

Lemma create_team_then_look_up_witness :
  ∃ id c' before after,
    DataHandler.create_team 8 "100001" "Team B" Example.one_team = (Return id, c')
    ∧ (DataHandler.get_user_id_for_team id c').1 = Return "100001"%string
    ∧ (DataHandler.get_user_teams "100001" Example.one_team).1 = Return before
    ∧ (DataHandler.get_user_teams "100001" c').1 = Return after
    ∧ after ≡ₚ {| DataHandler.Team.id := id; DataHandler.Team.name := "Team B" |}
               :: before.
Proof.
  apply (create_team_then_look_up 8 "100001" "Team B" Example.one_team);
    by_evaluation.
Defined.

Lemma add_team_member_then_list_witness :
  ∃ id c' before after,
    DataHandler.add_team_member 11 "100007" "m1" "m@x.com" "5550100" "9"
      "High School" "Springfield" "560001" Example.one_team = (Return id, c')
    ∧ (DataHandler.get_team_members "100007" Example.one_team).1 = Return before
    ∧ (DataHandler.get_team_members "100007" c').1 = Return after
    ∧ after ≡ₚ id :: before.
Proof.
  apply (add_team_member_then_list 11 "100007" "m1" "m@x.com" "5550100" "9"
           "High School" "Springfield" "560001" Example.one_team);
    by_evaluation.
Defined.

Lemma add_team_member_then_details_witness :
  ∃ id c',
    DataHandler.add_team_member 11 "100007" "m1" "m@x.com" "5550100" "9"
      "High School" "Springfield" "560001" Example.one_team = (Return id, c')
    ∧ (DataHandler.get_team_member_details "100007" id c').1 =
        Return {| DataHandler.TeamMemberDetails.name := "m1";
                  DataHandler.TeamMemberDetails.email := "m@x.com";
                  DataHandler.TeamMemberDetails.phone_number := "5550100";
                  DataHandler.TeamMemberDetails.grade := "9";
                  DataHandler.TeamMemberDetails.school_name := "High School";
                  DataHandler.TeamMemberDetails.city := "Springfield";
                  DataHandler.TeamMemberDetails.pin_code := "560001";
                  DataHandler.TeamMemberDetails.team_id := "100007" |}.
Proof.
  apply (add_team_member_then_details 11 "100007" "m1" "m@x.com" "5550100" "9"
           "High School" "Springfield" "560001" Example.one_team);
    by_evaluation.
Defined.

Lemma no_such_member_iff_witness :
  (DataHandler.get_team_member_details "100008" "100011"
     (perform_all (H := plain_hash) [CreateTeam 8 "100001" "Other"]
        Example.full_team)).1 = Raise NoSuchTeamMember.
Proof.
  apply no_such_member_iff.
  intros (row & Hrow & Hid & Hteam).
  apply list_elem_of_In in Hrow. vm_compute in Hrow.
  destruct Hrow as [<-|[<-|[<-|[<-|[]]]]]; discriminate.
Defined.

Lemma get_team_members_bounded_witness :
  (DataHandler.get_team_members "999999" Example.full_team).1 = Return []
  ∧ ∃ ids,
      (DataHandler.get_team_members "100007"
         (perform_all (H := plain_hash)
            [AddTeamMember 15 "100007" "m5" "m@x.com" "5550100" "9"
               "High School" "Springfield" "560001"] Example.full_team)).1 =
        Return ids
      ∧ length ids ≤ 4.
Proof.
  split.
  - apply (get_team_members_bounded (H := plain_hash) "999999" Example.full_team);
      unfold members_have_teams; by_evaluation.
  - apply (get_team_members_bounded (H := plain_hash) "100007" Example.full_team).
    by_evaluation.
Defined.

Lemma add_document_left_pending_witness :
  ∃ c' c'',
    DataHandler.add_document 3 "100007" "/docs/a.pdf" Example.one_team =
      (Return "100003"%string, c')
    ∧ documents (session c') = [document_row 3 "100007" "/docs/a.pdf"]
    ∧ committed c' = committed Example.one_team
    ∧ DataHandler.register_user (H := plain_hash) 2 "u"%char "b@x.com"
        "password2" c' = (Return "100002"%string, c'')
    ∧ document_row 3 "100007" "/docs/a.pdf" ∈ documents (committed c'').
Proof.
  apply (add_document_left_pending (H := plain_hash) 3 2 "u"%char "100007"
           "/docs/a.pdf" "b@x.com" "password2" Example.one_team); by_evaluation.
Defined.

Lemma register_rejected_witness :
  ∃ c',
    Main.register (H := plain_hash) 1 "u"%char "t"%char
      {| Main.RegisterRequest.email := "new@x.com";
         Main.RegisterRequest.password := "password2" |} Example.one_team =
      (Return (register_response "-1" false false true, []), c')
    ∧ same_data Example.one_team c'.
Proof.
  apply (register_rejected (H := plain_hash)).
  - by_evaluation.
  - right. by_evaluation.
Defined.

Lemma register_then_login_witness :
  ∃ c' c'',
    Main.register (H := plain_hash) 2 "u"%char "t"%char
      {| Main.RegisterRequest.email := "b@x.com";
         Main.RegisterRequest.password := "password2" |} Example.one_team =
      (Return (register_response "100002" true true true,
               token_cookies (H := plain_hash) "100002" "t"%char), c')
    ∧ ∀ token_salt',
        Main.login (H := plain_hash) token_salt'
          {| Main.LoginRequest.email := "b@x.com";
             Main.LoginRequest.password := "password2" |} c' =
          (Return (login_response true true true,
                   token_cookies (H := plain_hash) "100002" token_salt'), c'').
Proof.
  apply (register_then_login (H := plain_hash) 2 "u"%char "t"%char
           {| Main.RegisterRequest.email := "b@x.com";
              Main.RegisterRequest.password := "password2" |} Example.one_team);
    by_evaluation.
Defined.

Lemma login_failures_witness :
  (Main.login (H := plain_hash) "t"%char
     {| Main.LoginRequest.email := "b@x.com";
        Main.LoginRequest.password := "password1" |} Example.one_team).1 =
    Return (login_response false false true, [])
  ∧ (Main.login (H := plain_hash) "t"%char
       {| Main.LoginRequest.email := "a@x.com";
          Main.LoginRequest.password := "password2" |} Example.one_team).1 =
      Return (login_response false true false, []).
Proof.
  split.
  - apply (login_failures (H := plain_hash)). by_evaluation.
  - destruct (login_failures (H := plain_hash) "t"%char
                {| Main.LoginRequest.email := "a@x.com";
                   Main.LoginRequest.password := "password2" |} Example.one_team)
      as (_ & _ & _ & Hwrong).
    eapply Hwrong; reflexivity.
Defined.

Lemma owner_adds_member_witness :
  (∃ c',
     Main.add_team_member (H := plain_hash) 11 Example.owner_cookies
       (Example.request "100007" "m1") Example.one_team =
       (Return (Main.add_team_member_response true true true true true), c')
     ∧ team_members (committed c') =
         [requested_row 11 (Example.request "100007" "m1")])
  ∧ ∃ c',
      Main.add_team_member (H := plain_hash) 15 Example.owner_cookies
        (Example.request "100007" "m5") Example.full_team =
        (Return (Main.add_team_member_response false true false true true), c')
      ∧ same_data Example.full_team c'.
Proof.
  split.
  - apply (owner_adds_member (H := plain_hash) 11 Example.owner_cookies
             (Example.request "100007" "m1") "100001" Example.one_team
             eq_refl eq_refl); by_evaluation.
  - apply (owner_adds_member (H := plain_hash) 15 Example.owner_cookies
             (Example.request "100007" "m5") "100001" Example.full_team
             eq_refl eq_refl); by_evaluation.
Defined.

Lemma add_team_member_responses_witness :
  (Main.add_team_member (H := plain_hash) 15 Example.owner_cookies
     (Example.request "100007" "m5") Example.full_team).1 ≠
    Return (Main.add_team_member_response false true false false true).
Proof.
  destruct (Main.add_team_member (H := plain_hash) 15 Example.owner_cookies
              (Example.request "100007" "m5") Example.full_team)
    as [outcome c'] eqn:Hcall.
  assert (Hreturned : ∃ response, outcome = Return response).
  { vm_compute in Hcall. injection Hcall as <- _. eauto. }
  destruct Hreturned as [response ->]. cbn [fst].
  destruct (add_team_member_responses (H := plain_hash) 15
              Example.owner_cookies (Example.request "100007" "m5")
              Example.full_team c' response Hcall) as [_ Hnever].
  intros [= Heq]. by apply Hnever.
Defined.

Lemma create_team_for_verified_user_witness :
  (∃ c' before after,
     Main.create_team (H := plain_hash) 8 Example.owner_cookies
       {| Main.CreateTeamRequest.team_name := "Team B" |} Example.one_team =
       (Return (create_team_response (inl "100008"%string) true true), c')
     ∧ team_owner "100008" (session c') = Some "100001"%string
     ∧ (Main.get_teams (H := plain_hash) Example.owner_cookies
          Example.one_team).1 = Return (get_teams_response before true true)
     ∧ (Main.get_teams (H := plain_hash) Example.owner_cookies c').1 =
         Return (get_teams_response after true true)
     ∧ after ≡ₚ {| DataHandler.Team.id := "100008";
                   DataHandler.Team.name := "Team B" |} :: before)
  ∧ (∃ c',
       Main.create_team (H := plain_hash) 7 Example.owner_cookies
         {| Main.CreateTeamRequest.team_name := "Team B" |} Example.one_team =
         (Raise UserMailExists, c')
       ∧ same_data Example.one_team c')
  ∧ ∃ c',
      Main.create_team (H := plain_hash) 8 Example.stranger_cookies
        {| Main.CreateTeamRequest.team_name := "Team B" |} Example.one_team =
        (Raise UserMailExists, c')
      ∧ same_data Example.one_team c'.
Proof.
  destruct (create_team_for_verified_user (H := plain_hash) 8
              Example.owner_cookies
              {| Main.CreateTeamRequest.team_name := "Team B" |} "100001"
              Example.one_team eq_refl) as [Hfresh _].
  destruct (create_team_for_verified_user (H := plain_hash) 7
              Example.owner_cookies
              {| Main.CreateTeamRequest.team_name := "Team B" |} "100001"
              Example.one_team eq_refl) as [_ Hclash].
  destruct (create_team_for_verified_user (H := plain_hash) 8
              Example.stranger_cookies
              {| Main.CreateTeamRequest.team_name := "Team B" |} "222222"
              Example.one_team eq_refl) as [_ Hunknown].
  split; [apply Hfresh; by_evaluation | split].
  - apply Hclash. reflexivity.
  - apply Hunknown. reflexivity.
Defined.

Lemma get_teams_lists_own_teams_witness :
  ∃ listed c',
    Main.get_teams (H := plain_hash) Example.stranger_cookies Example.one_team =
      (Return (get_teams_response listed true true), c')
    ∧ same_data Example.one_team c'
    ∧ ∀ team, team ∈ listed ↔
        ∃ row, row ∈ teams (session Example.one_team)
               ∧ teams_user_id row = "222222"%string ∧ team = team_of row.
Proof.
  apply (get_teams_lists_own_teams (H := plain_hash) Example.stranger_cookies
           "222222" Example.one_team eq_refl).
Defined.

Lemma owner_reads_members_witness :
  (Main.get_team_members (H := plain_hash) Example.owner_cookies
     {| Main.GetTeamMemberRequest.team_id := "100007" |} Example.full_team).1 =
    Return (team_members_response
              ["100011"%string; "100012"%string; "100013"%string;
               "100014"%string] true true true)
  ∧ (Main.get_team_member_details (H := plain_hash) Example.owner_cookies
       {| Main.GetTeamMemberDetailsRequest.team_id := "100007";
          Main.GetTeamMemberDetailsRequest.team_member_id := "999999" |}
       Example.full_team).1 =
      Return (member_details_response None false true true false).
Proof.
  destruct (owner_reads_members (H := plain_hash) Example.owner_cookies
              "100001" "100007" Example.full_team eq_refl eq_refl)
    as (Hmembers & _ & Hnone).
  split; [exact Hmembers|]. apply Hnone.
  intros (row & Hrow & Hid & Hteam).
  apply list_elem_of_In in Hrow. vm_compute in Hrow.
  destruct Hrow as [<-|[<-|[<-|[<-|[]]]]]; discriminate.
Defined.

Lemma get_current_id_agrees_with_get_id_witness :
  (Main.get_current_id (H := plain_hash) Example.owner_cookies
     Example.one_team).1 = Return (get_id_response "100001" true).
Proof.
  apply (get_current_id_agrees_with_get_id (H := plain_hash)). reflexivity.
Defined.

Lemma rejected_token_fails_closed_witness :
  Main.create_team (H := plain_hash) 8 Example.malformed_cookies
    {| Main.CreateTeamRequest.team_name := "Team B" |} Example.one_team =
    (Return (create_team_response (inr (-1)%Z) false false), Example.one_team)
  ∧ Main.add_team_member (H := plain_hash) 11 Example.forged_cookies
      (Example.request "100007" "m1") Example.one_team =
      (Return (Main.add_team_member_response false false true true true),
       Example.one_team)
  ∧ Main.get_teams (H := plain_hash) Example.forged_cookies Example.one_team =
      (Return (get_teams_response [] false false), Example.one_team).
Proof.
  assert (Hmal : token_rejected (H := plain_hash) Example.malformed_cookies)
    by by_evaluation.
  assert (Hforged : token_rejected (H := plain_hash) Example.forged_cookies)
    by by_evaluation.
  split; [|split].
  - apply (rejected_token_fails_closed (H := plain_hash)
             Example.malformed_cookies Example.one_team Hmal).
  - apply (rejected_token_fails_closed (H := plain_hash)
             Example.forged_cookies Example.one_team Hforged).
  - apply (rejected_token_fails_closed (H := plain_hash)
             Example.forged_cookies Example.one_team Hforged).
Defined.
